(** * Batch metric extraction over debate records

    A shallow embedding of [alignment_correlation.py]: the reconstruction of
    the turn table of a debate record ([build_turns_from_debate]), the task
    run on each record file ([process_one_file]) and the fan-out, collection
    and aggregation of [main].

    Conventions of the embedding.
    - A decoded JSON document is a value of [json]; a Python [dict] obtained
      from JSON is an association list looked up by its first matching key.
    - A Python [str] is a [string], one [ascii] per character.
    - A value of [exn] is an instance of a subclass of [Exception]: this is
      what every failing operation of the program raises ([KeyError],
      [IndexError], [TypeError], [JSONDecodeError], [OSError] and its
      subclasses, and the failures of the library routines).  An exception
      carries its class name, its [str] and the frames of its traceback,
      outermost first.
      Where the text of a message depends on the interpreter, it is that of
      CPython 3.11.
    - The file system, the log of the calls of the alignment routine and the
      standard output form the [world], threaded through the effectful code.
    - The decoders and routines of the libraries ([json.load],
      [DataFrame.to_csv], [dialign]) are parameters of the development.
    - The tasks of the pool share nothing but the file system, where each
      works on a temporary file of its own; a task is run on the world as one
      step, at the point where its future completes.  The order of completion
      and the fate of each worker are given by the scheduler, a parameter of
      [main].  The plots that end [main] are left out. *)

From stdpp Require Import gmap strings list fin_maps pretty.
From Stdlib Require Import Ascii QArith.

Set Warnings "-register-all".

Open Scope string_scope.
Open Scope Z_scope.
Open Scope nat_scope.
Open Scope list_scope.

(** ** Exceptions *)

Module Py.

(** A traceback entry: the function and the line being executed. *)
Definition frame : Type := string * nat.

Record exn : Type := Exn {
  exn_class : string;       (* e.__class__.__name__ *)
  exn_msg : string;         (* str(e) *)
  exn_tb : list frame       (* traceback, outermost frame first *)
}.

Definition py (A : Type) : Type := exn + A.

Definition raise {A} (cls msg : string) : py A := inl (Exn cls msg []).

#[global] Instance py_ret : MRet py := λ A a, inr a.

#[global] Instance py_bind : MBind py := λ A B k m,
  match m with
  | inl e => inl e
  | inr a => k a
  end.

(** An exception that leaves a function through line [line] of [fn] gets
    this frame in front of its traceback. *)
Definition at_line {A} (fn : string) (line : nat) (m : py A) : py A :=
  match m with
  | inl e => inl (Exn (exn_class e) (exn_msg e) ((fn, line) :: exn_tb e))
  | inr a => inr a
  end.

Definition raises {A} (m : py A) : bool :=
  match m with inl _ => true | inr _ => false end.

(** ** Decoded JSON values *)

Inductive json : Type :=
| JNull
| JBool (b : bool)
| JInt (z : Z)
| JFloat (q : Q)
| JStr (s : string)
| JArr (l : list json)
| JObj (kvs : list (string * json)).

Definition type_name (v : json) : string :=
  match v with
  | JNull => "NoneType"
  | JBool _ => "bool"
  | JInt _ => "int"
  | JFloat _ => "float"
  | JStr _ => "str"
  | JArr _ => "list"
  | JObj _ => "dict"
  end.

Definition not_subscriptable {A} (v : json) : py A :=
  raise "TypeError" ("'" +:+ type_name v +:+ "' object is not subscriptable").

Fixpoint assoc (k : string) (kvs : list (string * json)) : option json :=
  match kvs with
  | [] => None
  | (k', v) :: rest => if decide (k = k') then Some v else assoc k rest
  end.

(** [repr] of a key: the keys the program uses are literals without quotes
    or escapes. *)
Definition repr_key (k : string) : string := "'" +:+ k +:+ "'".

(** [v[k]] for a string key. *)
Definition getitem (v : json) (k : string) : py json :=
  match v with
  | JObj kvs =>
      match assoc k kvs with
      | Some x => inr x
      | None => raise "KeyError" (repr_key k)
      end
  | JArr _ => raise "TypeError" "list indices must be integers or slices, not str"
  | JStr _ => raise "TypeError" "string indices must be integers, not 'str'"
  | _ => not_subscriptable v
  end.

Definition chars (s : string) : list json :=
  (λ c, JStr (String c EmptyString)) <$> String.list_ascii_of_string s.

(** [v[i]] for a non-negative integer literal. *)
Definition getindex (v : json) (i : nat) : py json :=
  match v with
  | JArr l =>
      match l !! i with
      | Some x => inr x
      | None => raise "IndexError" "list index out of range"
      end
  | JStr s =>
      match chars s !! i with
      | Some x => inr x
      | None => raise "IndexError" "string index out of range"
      end
  | JObj _ => raise "KeyError" (pretty i)   (* a decoded dict has str keys only *)
  | _ => not_subscriptable v
  end.

(** The elements that a loop over [v[n:]] visits.  Slicing a list or a
    string never fails; a dict rejects the slice as a key. *)
Definition slice_from (v : json) (n : nat) : py (list json) :=
  match v with
  | JArr l => inr (drop n l)
  | JStr s => inr (drop n (chars s))
  | JObj _ => raise "TypeError" "unhashable type: 'slice'"
  | _ => not_subscriptable v
  end.

End Py.
Export Py.

(** ** Reconstruction of the turn table *)

Record row : Type := Row { Speaker : string; Utterance : json }.

Definition speaker_at (i : nat) : string :=
  if Nat.even i then "Negative side" else "Affirmative side".

(** The body of the [for] loop, resumed at index [i] with the rows appended
    so far. *)
Fixpoint alternate (i : nat) (utts : list json) (data : list row) : py (list row) :=
  match utts with
  | [] => inr data
  | utt :: rest =>
      c ← at_line "build_turns_from_debate" 34 (getitem utt "content");
      alternate (S i) rest (data ++ [Row (speaker_at i) c])
  end.

Definition build_turns_from_debate (debate : json) : py (list row) :=
  seed ← at_line "build_turns_from_debate" 29
           (players ← getitem debate "players";
            aff ← getitem players "Affirmative side";
            turn ← getindex aff 5;
            getitem turn "content");
  let data := [Row "Affirmative side" seed] in
  utts ← at_line "build_turns_from_debate" 32
           (players ← getitem debate "players";
            neg ← getitem players "Negative side";
            slice_from neg 2);
  alternate 0 utts data.

(** ** Paths *)

Definition debate_path : string := "MAD_Debate_Process".

Fixpoint has_slash (s : string) : bool :=
  match s with
  | EmptyString => false
  | String c r => if decide (c = "/"%char) then true else has_slash r
  end.

Definition ends_with_slash (s : string) : bool :=
  match last (String.list_ascii_of_string s) with
  | Some c => bool_decide (c = "/"%char)
  | None => false
  end.

(** [os.path.join(a, b)] *)
Definition os_path_join (a b : string) : string :=
  match b with
  | String "/"%char _ => b
  | _ => if decide (a = EmptyString) then b
         else if ends_with_slash a then a +:+ b
         else a +:+ "/" +:+ b
  end.

(** [os.path.basename(p)]: what follows the last slash of [p]. *)
Fixpoint os_path_basename (p : string) : string :=
  match p with
  | EmptyString => EmptyString
  | String c r =>
      if has_slash r then os_path_basename r
      else if decide (c = "/"%char) then r
      else p
  end.

(** [strip_prefix pre s] is [Some f] exactly when [s = pre +:+ f]. *)
Fixpoint strip_prefix (pre s : string) : option string :=
  match pre, s with
  | EmptyString, _ => Some s
  | String a pre', String b s' =>
      if decide (a = b) then strip_prefix pre' s' else None
  | String _ _, EmptyString => None
  end.

(** ** The world *)

Inductive node : Type :=
| File (content : string)   (* a regular file *)
| Unreadable                (* a regular file that the process may not read *)
| Dir.

(** One call of the alignment routine: its arguments and what the file
    named by the first one held at that time. *)
Record dialign_call : Type := Call {
  call_path : string;
  call_group_col : string;
  call_text_col : string;
  call_table : option string
}.

Record world : Type := World {
  w_fs : gmap string node;          (* the file system, by full path *)
  w_locked : gset string;           (* paths whose removal the system denies *)
  w_calls : list dialign_call;      (* calls of the alignment routine so far *)
  w_out : list string               (* lines printed so far *)
}.

Definition set_fs (f : gmap string node → gmap string node) (w : world) : world :=
  World (f (w_fs w)) (w_locked w) (w_calls w) (w_out w).

(** Effectful code: a state transformer that returns or raises. *)
Definition M (A : Type) : Type := world → world * py A.

#[global] Instance M_ret : MRet M := λ A a w, (w, inr a).

#[global] Instance M_bind : MBind M := λ A B k m w,
  match m w with
  | (w', inl e) => (w', inl e)
  | (w', inr a) => k a w'
  end.

Definition lift {A} (m : py A) : M A := λ w, (w, m).

Definition at_lineM {A} (fn : string) (line : nat) (m : M A) : M A := λ w,
  let (w', r) := m w in (w', at_line fn line r).

(** [try: m finally: fin] *)
Definition try_finally {A} (m : M A) (fin : M unit) : M A := λ w,
  let (w1, r) := m w in
  match fin w1 with
  | (w2, inl e) => (w2, inl e)
  | (w2, inr _) => (w2, r)
  end.

(** [try: m except Exception: pass] *)
Definition try_pass (m : M unit) : M unit := λ w,
  let (w', _) := m w in (w', inr ()).

Definition os_error {A} (cls : string) (errno : string) (path : string) : py A :=
  raise cls (errno +:+ ": " +:+ repr_key path).

(** [open(path, 'r')] followed by reading the whole file. *)
Definition open_read (path : string) : M string := λ w,
  match w_fs w !! path with
  | Some (File content) => (w, inr content)
  | Some Unreadable => (w, os_error "PermissionError" "[Errno 13] Permission denied" path)
  | Some Dir => (w, os_error "IsADirectoryError" "[Errno 21] Is a directory" path)
  | None => (w, os_error "FileNotFoundError" "[Errno 2] No such file or directory" path)
  end.

(** [os.path.isfile(path)] *)
Definition os_path_isfile (w : world) (path : string) : bool :=
  match w_fs w !! path with
  | Some (File _) | Some Unreadable => true
  | _ => false
  end.

(** The name [d/f] of a direct child of directory [d]. *)
Definition child_name (d path : string) : option string :=
  match strip_prefix (d +:+ "/") path with
  | Some f => if decide (f = EmptyString) then None else if has_slash f then None else Some f
  | None => None
  end.

(** [os.listdir(d)]: the names of the direct children of [d], in the order
    the file system lists them. *)
Definition os_listdir (d : string) : M (list string) := λ w,
  match w_fs w !! d with
  | Some Dir => (w, inr (omap (child_name d) (fst <$> map_to_list (w_fs w))))
  | Some _ => (w, os_error "NotADirectoryError" "[Errno 20] Not a directory" d)
  | None => (w, os_error "FileNotFoundError" "[Errno 2] No such file or directory" d)
  end.

(** [os.remove(path)] *)
Definition os_remove (path : string) : M unit := λ w,
  match w_fs w !! path with
  | None => (w, os_error "FileNotFoundError" "[Errno 2] No such file or directory" path)
  | Some Dir => (w, os_error "IsADirectoryError" "[Errno 21] Is a directory" path)
  | Some _ =>
      if decide (path ∈ w_locked w)
      then (w, os_error "PermissionError" "[Errno 13] Permission denied" path)
      else (set_fs (delete path) w, inr ())
  end.

(** The name of a new temporary file: [/tmp/tmp<stem>.csv] for a stem that
    no existing path uses. *)
Definition stem_of (path : string) : string :=
  String.substring 8 (String.length path - 12) path.

Definition tmp_name (w : world) : string :=
  "/tmp/tmp" +:+ fresh (set_map (C:=gset string) (D:=gset string) stem_of (dom (w_fs w))) +:+ ".csv".

(** [tempfile.NamedTemporaryFile(mode="w", suffix=".csv", delete=False)]:
    the new file exists and is empty; its name is returned. *)
Definition NamedTemporaryFile : M string := λ w,
  let name := tmp_name w in
  (set_fs <[name := File EmptyString]> w, inr name).

Definition print (line : string) : M unit := λ w,
  (World (w_fs w) (w_locked w) (w_calls w) (w_out w ++ [line]), inr ()).

(** ** Task results *)

Record success : Type := Ok {
  ok_file : string;
  comet : json;
  er : json;
  ee : json;
  aff_rep : json;
  neg_rep : json;
  aff_est : json;
  neg_est : json;
  aff_init : json
}.

Record failure : Type := Err {
  err_file : string;
  error : string;
  trace : list frame * string   (* the frames listed and the closing line *)
}.

(** The dict returned by a task: ["ok": True] or ["ok": False]. *)
Inductive task_result : Type :=
| Success (s : success)
| Failure (f : failure).

Definition ok (r : task_result) : bool :=
  match r with Success _ => true | Failure _ => false end.

Definition file (r : task_result) : string :=
  match r with Success s => ok_file s | Failure f => err_file f end.

(** [traceback.format_exc(limit)]: at most [limit] entries, counted from the
    frame that caught the exception, then the line naming the exception. *)
Definition describe (e : exn) : string := exn_class e +:+ ": " +:+ exn_msg e.

Definition format_exc (limit : nat) (e : exn) : list frame * string :=
  (take limit (exn_tb e), describe e).

(** What the alignment routine returns. *)
Record dialign_out : Type := Out {
  speaker_independent : json;
  speaker_dependent : json;
  shared_expressions : json;
  self_repetitions : json;
  online_metrics : json
}.

(** How one future of the pool ends: the worker returns what the task
    returned, or the worker process dies before it does. *)
Inductive fate : Type := Returns | Crashes.

Section Extractor.

(** The library routines: the JSON decoder applied to the text of a file,
    the CSV rendering of a table, and the alignment routine applied to the
    text of the table and the two column labels. *)
Variable json_load : string → py json.
Variable to_csv : list row → py string.
Variable dialign : string → string → string → py dialign_out.

(** [pd.DataFrame(data).to_csv(path, index=False)]: a failed rendering
    leaves the file as it was. *)
Definition DataFrame_to_csv (data : list row) (path : string) : M unit := λ w,
  match to_csv data with
  | inl e => (w, inl e)
  | inr csv => (set_fs <[path := File csv]> w, inr ())
  end.

(** [dialign(path, group_col, text_col)]: the routine reads the table at
    [path]; the call is logged. *)
Definition dialign_run (path group_col text_col : string) : M dialign_out := λ w,
  let table := match w_fs w !! path with
               | Some (File csv) => Some csv
               | _ => None
               end in
  (World (w_fs w) (w_locked w)
         (w_calls w ++ [Call path group_col text_col table]) (w_out w),
   match table with
   | Some csv => dialign csv group_col text_col
   | None => os_error "FileNotFoundError" "[Errno 2] No such file or directory" path
   end).

Definition here {A} : nat → M A → M A := at_lineM "process_one_file".

(** The [try] block of [process_one_file]. *)
Definition process_body (path_to_file : string) : M success :=
  content ← here 43 (open_read path_to_file);
  debate ← here 44 (lift (json_load content));
  comet_score ← here 46 (lift (getitem debate "comet score"));
  data ← here 47 (lift (build_turns_from_debate debate));
  (* with NamedTemporaryFile(...) as tmp: left without removing the file *)
  tmp_path ← (tmp_path ← here 50 NamedTemporaryFile;
              _ ← here 52 (DataFrame_to_csv data tmp_path);
              mret tmp_path);
  out ← try_finally
          (here 56 (dialign_run tmp_path "Speaker" "Utterance"))
          (try_pass (os_remove tmp_path));
  er ← here 69 (lift (getitem (speaker_independent out) "ER"));
  ee ← here 70 (lift (getitem (speaker_independent out) "EE"));
  aff_rep ← here 71 (lift (a ← getitem (speaker_dependent out) "Affirmative side";
                           getitem a "ER"));
  neg_rep ← here 72 (lift (n ← getitem (speaker_dependent out) "Negative side";
                           getitem n "ER"));
  aff_est ← here 73 (lift (a ← getitem (speaker_dependent out) "Affirmative side";
                           getitem a "EE"));
  neg_est ← here 74 (lift (n ← getitem (speaker_dependent out) "Negative side";
                           getitem n "EE"));
  aff_init ← here 75 (lift (a ← getitem (speaker_dependent out) "Affirmative side";
                            getitem a "Initiated"));
  mret (Ok (os_path_basename path_to_file) comet_score
           er ee aff_rep neg_rep aff_est neg_est aff_init).

(** [process_one_file]: the [try] block and its [except Exception] handler. *)
Definition process_one_file (path_to_file : string) (w : world) : world * task_result :=
  match process_body path_to_file w with
  | (w', inr s) => (w', Success s)
  | (w', inl e) =>
      (w', Failure (Err (os_path_basename path_to_file) (describe e) (format_exc 3 e)))
  end.

(** ** The batch *)

(** Lines 90-92: the regular files directly under [debate_path]. *)
Definition gather_files : M (list string) := λ w,
  match os_listdir debate_path w with
  | (w', inl e) => (w', inl e)
  | (w', inr names) =>
      (w', inr (filter (λ p, os_path_isfile w' p = true)
                       (os_path_join debate_path <$> names)))
  end.

Definition broken_pool {A} : py A :=
  raise "BrokenProcessPool"
    "A process in the process pool was terminated abruptly while the future was running or pending.".

(** Lines 98-104: the loop over the futures in the order they complete.  A
    task runs on the world as a whole step, at the point where its future
    completes; [fut.result()] raises for a future whose worker died. *)
Fixpoint collect (futures : list (string * fate)) (results : list task_result)
  : M (list task_result) :=
  match futures with
  | [] => mret results
  | (p, Returns) :: rest =>
      res ← (λ w, let (w', r) := process_one_file p w in (w', inr r));
      _ ← (if ok res
           then print ("Processed: " +:+ file res)
           else print ("FAILED: " +:+ file res +:+ " - " +:+
                       match res with Failure f => error f | Success _ => EmptyString end));
      collect rest (results ++ [res])
  | (p, Crashes) :: _ => at_lineM "main" 99 (lift broken_pool)
  end.

(** The series built for plotting, lines 107-117. *)
Record series : Type := Series {
  comet_scores : list json;
  ers : list json;
  ees : list json;
  affirmative_repetitions : list json;
  negative_repetitions : list json;
  affirmative_establishments : list json;
  negative_establishments : list json;
  affirmative_initiated : list json
}.

Definition oks (results : list task_result) : list success :=
  omap (λ r, match r with Success s => Some s | Failure _ => None end) results.

Definition build_series (results : list task_result) : series :=
  let ok := oks results in
  Series (comet <$> ok) (er <$> ok) (ee <$> ok) (aff_rep <$> ok) (neg_rep <$> ok)
         (aff_est <$> ok) (neg_est <$> ok) (aff_init <$> ok).

(** [main] up to the plots; [as_completed] gives, for the submitted paths,
    the order in which their futures complete and how each one ends. *)
Definition main (as_completed : list string → list (string * fate))
  : M (list task_result * series) :=
  files ← gather_files;
  results ← collect (as_completed files) [];
  mret (results, build_series results).

(** ** The stages of a task

    The [try] block read as three stages: what it reads from the record
    (lines 43-47), the alignment of the written table (line 56) and the
    metrics picked from its output (lines 65-76). *)

Definition pof : string := "process_one_file".

Definition load_record (path_to_file : string) (w : world) : py (json * list row) :=
  content ← at_line pof 43 (open_read path_to_file w).2;
  debate ← at_line pof 44 (json_load content);
  comet_score ← at_line pof 46 (getitem debate "comet score");
  data ← at_line pof 47 (build_turns_from_debate debate);
  mret (comet_score, data).

Definition align (csv : string) : py dialign_out :=
  at_line pof 56 (dialign csv "Speaker" "Utterance").

Definition metrics_of (path_to_file : string) (comet_score : json) (out : dialign_out)
  : py success :=
  er ← at_line pof 69 (getitem (speaker_independent out) "ER");
  ee ← at_line pof 70 (getitem (speaker_independent out) "EE");
  aff_rep ← at_line pof 71 (a ← getitem (speaker_dependent out) "Affirmative side";
                            getitem a "ER");
  neg_rep ← at_line pof 72 (n ← getitem (speaker_dependent out) "Negative side";
                            getitem n "ER");
  aff_est ← at_line pof 73 (a ← getitem (speaker_dependent out) "Affirmative side";
                            getitem a "EE");
  neg_est ← at_line pof 74 (n ← getitem (speaker_dependent out) "Negative side";
                            getitem n "EE");
  aff_init ← at_line pof 75 (a ← getitem (speaker_dependent out) "Affirmative side";
                             getitem a "Initiated");
  mret (Ok (os_path_basename path_to_file) comet_score
           er ee aff_rep neg_rep aff_est neg_est aff_init).

(** The world after a task that wrote its table [csv] to [tmp]: the call is
    logged, and the table stays only if its removal was denied. *)
Definition after_task (w : world) (tmp csv : string) : world :=
  World (if decide (tmp ∈ w_locked w) then <[tmp := File csv]> (w_fs w) else w_fs w)
        (w_locked w)
        (w_calls w ++ [Call tmp "Speaker" "Utterance" (Some csv)])
        (w_out w).

(** What the [try] block returns or raises, as a function of the record. *)
Definition outcome (path_to_file : string) (w : world) : py success :=
  '(comet_score, data) ← load_record path_to_file w;
  csv ← at_line pof 52 (to_csv data);
  out ← align csv;
  metrics_of path_to_file comet_score out.


(** The files that [gather_files] finds when the directory exists. *)
Definition record_files (w : world) : list string :=
  filter (λ p, os_path_isfile w p = true)
         (os_path_join debate_path <$>
            omap (child_name debate_path) (fst <$> map_to_list (w_fs w))).

End Extractor.

(** One side's list of turns, [debate['players'][name]]. *)
Definition side (debate : json) (name : string) : py json :=
  players ← getitem debate "players";
  getitem players name.


(** The dict that the handler, or the end of the [try] block, returns. *)
Definition as_result (path_to_file : string) (r : py success) : task_result :=
  match r with
  | inr s => Success s
  | inl e => Failure (Err (os_path_basename path_to_file) (describe e) (format_exc 3 e))
  end.

Definition with_locked (locked : gset string) (w : world) : world :=
  World (w_fs w) locked (w_calls w) (w_out w).


(** ** The status lines and the plots of [main] *)

(** The line printed for a result, lines 100-103. *)
Definition status_line (res : task_result) : string :=
  match res with
  | Success s => "Processed: " +:+ ok_file s
  | Failure f => "FAILED: " +:+ err_file f +:+ " - " +:+ error f
  end.


(** What has been drawn on the current figure when it is saved. *)
Inductive figure : Type :=
| Scatter (x y : list json) (xlabel ylabel title : string)
| Hist (data : list json) (bins : nat) (edgecolor : string).

(** [plt.savefig(filename)], once the image is rendered: the file holds the
    image, replacing what the name held. *)
Definition savefig (filename png : string) : M unit := λ w,
  (set_fs <[filename := File png]> w, inr ()).

(** The world after a plot that went through. *)
Definition plotted (w : world) (filename png title r : string) : world :=
  World (<[filename := File png]> (w_fs w)) (w_locked w) (w_calls w)
        (w_out w ++ [title; r]).

(** The world after more lines are printed. *)
Definition printed (w : world) (lines : list string) : world :=
  World (w_fs w) (w_locked w) (w_calls w) (w_out w ++ lines).

(** The seven plots of [main], in order: the series drawn against the
    scores, its label, the title and the name of the image. *)
Definition plot_specs (s : series) : list (list json * string * string * string) :=
  [(ers s, "ER", "Correlation between ER and COMET Score", "er_comet_correlation.png");
   (ees s, "EE", "Correlation between EE and COMET Score", "ee_comet_correlation.png");
   (affirmative_repetitions s, "Affirmative Repetitions",
    "Correlation between Affirmative Repetitions and COMET Score",
    "affirmative_repetitions_comet_correlation.png");
   (negative_repetitions s, "Negative Repetitions",
    "Correlation between Negative Repetitions and COMET Score",
    "negative_repetitions_comet_correlation.png");
   (affirmative_establishments s, "Affirmative Establishments",
    "Correlation between Affirmative Establishments and COMET Score",
    "affirmative_establishments_comet_correlation.png");
   (negative_establishments s, "Negative Establishments",
    "Correlation between Negative Establishments and COMET Score",
    "negative_establishments_comet_correlation.png");
   (affirmative_initiated s, "Affirmative Initiated",
    "Correlation between Affirmative Initiated and COMET Score",
    "affirmative_initiated_comet_correlation.png")].

Section Plots.

(** The routines of the plotting and statistics libraries: the checks that
    [plt.scatter] and [plt.hist] make of their data, the rendering of a
    figure to the bytes of its image, and the text that [print] shows for
    the result of [pearsonr]. *)
Variable scatter : list json → list json → py unit.
Variable hist : list json → nat → string → py unit.
Variable render : figure → py string.
Variable pearsonr : list json → list json → py string.

(** [plot_correlation], lines 13-21. *)
Definition plot_correlation (x y : list json) (xlabel ylabel title filename : string)
  : M unit :=
  _ ← at_lineM "plot_correlation" 15 (lift (scatter x y));
  png ← at_lineM "plot_correlation" 19 (lift (render (Scatter x y xlabel ylabel title)));
  _ ← savefig filename png;
  _ ← print title;
  r ← at_lineM "plot_correlation" 21 (lift (pearsonr x y));
  print r.

(** The seven plots that end [main], lines 120-133. *)
Definition plots (s : series) : M unit :=
  _ ← at_lineM "main" 120
        (plot_correlation (ers s) (comet_scores s) "ER" "COMET Score"
           "Correlation between ER and COMET Score" "er_comet_correlation.png");
  _ ← at_lineM "main" 122
        (plot_correlation (ees s) (comet_scores s) "EE" "COMET Score"
           "Correlation between EE and COMET Score" "ee_comet_correlation.png");
  _ ← at_lineM "main" 124
        (plot_correlation (affirmative_repetitions s) (comet_scores s)
           "Affirmative Repetitions" "COMET Score"
           "Correlation between Affirmative Repetitions and COMET Score"
           "affirmative_repetitions_comet_correlation.png");
  _ ← at_lineM "main" 126
        (plot_correlation (negative_repetitions s) (comet_scores s)
           "Negative Repetitions" "COMET Score"
           "Correlation between Negative Repetitions and COMET Score"
           "negative_repetitions_comet_correlation.png");
  _ ← at_lineM "main" 128
        (plot_correlation (affirmative_establishments s) (comet_scores s)
           "Affirmative Establishments" "COMET Score"
           "Correlation between Affirmative Establishments and COMET Score"
           "affirmative_establishments_comet_correlation.png");
  _ ← at_lineM "main" 130
        (plot_correlation (negative_establishments s) (comet_scores s)
           "Negative Establishments" "COMET Score"
           "Correlation between Negative Establishments and COMET Score"
           "negative_establishments_comet_correlation.png");
  at_lineM "main" 132
    (plot_correlation (affirmative_initiated s) (comet_scores s)
       "Affirmative Initiated" "COMET Score"
       "Correlation between Affirmative Initiated and COMET Score"
       "affirmative_initiated_comet_correlation.png").

Variable json_load : string → py json.
Variable to_csv : list row → py string.
Variable dialign : string → string → string → py dialign_out.

(** [main] as a whole: the batch, then the plots of its series. *)
Definition main_with_plots (as_completed : list string → list (string * fate))
  : M unit :=
  '(results, s) ← main json_load to_csv dialign as_completed;
  plots s.

(** Whether the task of a file gets as far as calling the alignment
    routine: its record loads and its table is written. *)
Definition reaches_alignment (path : string) (w : world) : bool :=
  match load_record json_load path w with
  | inr (_, data) => negb (raises (to_csv data))
  | inl _ => false
  end.

(** ** The histogram script, [plot_comet.py] *)

Definition top : string := "<module>".

(** The body of the [for] loop, lines 8-12, with the scores appended so
    far. *)
Fixpoint comet_loop (files : list string) (data : list json) : M (list json) :=
  match files with
  | [] => mret data
  | file :: rest =>
      _ ← print ("Processing " +:+ file);
      content ← at_lineM top 10 (open_read (os_path_join debate_path file));
      debate ← at_lineM top 11 (lift (json_load content));
      score ← at_lineM top 12 (lift (getitem debate "comet score"));
      comet_loop rest (data ++ [score])
  end.

(** The script; it returns the scores it has drawn. *)
Definition plot_comet : M (list json) :=
  files ← at_lineM top 6 (os_listdir debate_path);
  data ← comet_loop files [];
  _ ← at_lineM top 13 (lift (hist data 20 "black"));
  png ← at_lineM top 14 (lift (render (Hist data 20 "black")));
  _ ← savefig "comet_score_distribution.png" png;
  mret data.

(** The same reading with the lines of the script that raise. *)
Definition read_comet_at (path : string) (w : world) : py json :=
  content ← at_line top 10 (open_read path w).2;
  debate ← at_line top 11 (json_load content);
  at_line top 12 (getitem debate "comet score").

(** The line printed for an entry. *)
Definition processing (file : string) : string := "Processing " +:+ file.

(** The score that the script reads from one file, frames apart. *)
Definition read_comet (path : string) (w : world) : py json :=
  content ← (open_read path w).2;
  debate ← json_load content;
  getitem debate "comet score".

End Plots.

(** The names that [os.listdir(debate_path)] gives when the directory
    exists. *)
Definition entry_names (w : world) : list string :=
  omap (child_name debate_path) (fst <$> map_to_list (w_fs w)).

(** ** Sample records and routines *)

Module Sample.

Definition turn (role content : string) : json :=
  JObj [("role", JStr role); ("content", JStr content)].

Definition affirmative (n : nat) : list json :=
  (λ i, turn "assistant" ("aff " +:+ pretty i)) <$> seq 0 n.

Definition negative (n : nat) : list json :=
  (λ i, turn "assistant" ("neg " +:+ pretty i)) <$> seq 0 n.

Definition debate (aff neg : list json) : json :=
  JObj [("players", JObj [("Affirmative side", JArr aff); ("Negative side", JArr neg)]);
        ("comet score", JFloat (17 # 20))].

Definition debate_ok : json := debate (affirmative 6) (negative 4).
Definition debate_short : json := debate (affirmative 3) (negative 4).
Definition debate_neg0 : json := debate (affirmative 6) [].
Definition debate_neg2 : json := debate (affirmative 6) (negative 2).

(** A decoder that knows three documents and rejects every other text. *)
Definition json_load (content : string) : py json :=
  if decide (content = "ok") then inr debate_ok
  else if decide (content = "short") then inr debate_short
  else if decide (content = "neg0") then inr debate_neg0
  else inl (Exn "JSONDecodeError" "Expecting value: line 1 column 1 (char 0)"
                [("load", 293); ("loads", 346); ("decode", 337); ("raw_decode", 355)]).

Definition cell (v : json) : string :=
  match v with
  | JStr s => s
  | _ => type_name v
  end.

Definition to_csv (data : list row) : py string :=
  inr (foldr (λ r acc, Speaker r +:+ "," +:+ cell (Utterance r) +:+ ";" +:+ acc)
             EmptyString data).

(** A rendering that fails for lack of space on the device. *)
Definition to_csv_full (data : list row) : py string :=
  inl (Exn "OSError" "[Errno 28] No space left on device" [("to_csv", 3902)]).

Definition speaker_metrics (a b c : Z) : json :=
  JObj [("ER", JInt a); ("EE", JInt b); ("Initiated", JInt c)].

Definition dialign (csv group_col text_col : string) : py dialign_out :=
  inr (Out (JObj [("ER", JInt 1); ("EE", JInt 2)])
           (JObj [("Affirmative side", speaker_metrics 3 4 5);
                  ("Negative side", speaker_metrics 6 7 8)])
           JNull JNull JNull).

(** A directory with two record files, one of them malformed, and a
    subdirectory holding a third. *)
Definition fs0 : gmap string node :=
  <["MAD_Debate_Process" := Dir]>
  (<["MAD_Debate_Process/a.json" := File "ok"]>
  (<["MAD_Debate_Process/b.json" := File "{oops"]>
  (<["MAD_Debate_Process/sub" := Dir]>
  (<["MAD_Debate_Process/sub/c.json" := File "ok"]> ∅)))).

Definition world0 : world := World fs0 ∅ [] [].

Definition fs1 : gmap string node :=
  <["MAD_Debate_Process" := Dir]> (<["MAD_Debate_Process/a.json" := File "ok"]> ∅).

Definition world1 : world := World fs1 ∅ [] [].



(** The same directory when the system denies the removal of the file that
    the task creates. *)
Definition world1_locked : world := World fs1 {[ "/tmp/tmp0.csv" ]} [] [].

(** Futures that complete in the order of submission, every worker
    returning; in the reverse order; and with every worker dying. *)
Definition in_order (files : list string) : list (string * fate) :=
  (λ p, (p, Returns)) <$> files.

Definition reversed (files : list string) : list (string * fate) :=
  (λ p, (p, Returns)) <$> reverse files.

Definition all_crash (files : list string) : list (string * fate) :=
  (λ p, (p, Crashes)) <$> files.

End Sample.

(** ** More sample routines *)

Module Sample2.

Definition scatter (x y : list json) : py unit :=
  if decide (length x = length y) then inr ()
  else inl (Exn "ValueError" "x and y must be the same size" [("scatter", 4655)]).

Definition hist (data : list json) (bins : nat) (edgecolor : string) : py unit :=
  inr ().

Definition img (fig : figure) : string :=
  match fig with
  | Scatter _ _ _ _ title => "scatter:" +:+ title
  | Hist data bins _ => "hist:" +:+ pretty (length data) +:+ "/" +:+ pretty bins
  end.

Definition render (fig : figure) : py string := inr (img fig).

Definition rho (x y : list json) : string := "r of " +:+ pretty (length x) +:+ " points".

(** A correlation that accepts any two series, and one that needs two
    points at least. *)
Definition pearsonr_any (x y : list json) : py string := inr (rho x y).

Definition pearsonr (x y : list json) : py string :=
  if decide (length x < 2) then
    inl (Exn "ValueError" "x and y must have length at least 2." [("pearsonr", 4768)])
  else inr (rho x y).


(** The decoder of the first samples, which also knows a document without
    a score. *)
Definition json_load (content : string) : py json :=
  if decide (content = "noscore") then inr (JObj [("players", JNull)])
  else Sample.json_load content.

Definition world4 : world :=
  World (<["MAD_Debate_Process" := Dir]>
         (<["MAD_Debate_Process/a.json" := File "noscore"]> ∅)) ∅ [] [].

(** A directory with two well-formed records. *)
Definition fs3 : gmap string node :=
  <["MAD_Debate_Process" := Dir]>
  (<["MAD_Debate_Process/a.json" := File "ok"]>
  (<["MAD_Debate_Process/b.json" := File "neg0"]> ∅)).

Definition world3 : world := World fs3 ∅ [] [].

(** A directory whose second record is malformed. *)
Definition world5 : world :=
  World (<["MAD_Debate_Process" := Dir]>
         (<["MAD_Debate_Process/a.json" := File "ok"]>
         (<["MAD_Debate_Process/b.json" := File "{oops"]> ∅))) ∅ [] [].

(** No directory at all. *)
Definition world_empty : world := World ∅ ∅ [] [].

(** A directory without entries. *)
Definition world_bare : world := World (<["MAD_Debate_Process" := Dir]> ∅) ∅ [] [].


End Sample2.
(** * Properties *)

(** ** Strings and paths *)

Lemma substring_prefix (f suf : string) :
  String.substring 0 (String.length f) (f +:+ suf) = f.
Proof.
  induction f as [|c f IH]; simpl.
  - by destruct suf.
  - by rewrite IH.
Qed.

Lemma length_append (a b : string) :
  String.length (a +:+ b) = String.length a + String.length b.
Proof. induction a as [|c a IH]; simpl; [done | by rewrite IH]. Qed.

Lemma stem_of_tmp (f : string) : stem_of ("/tmp/tmp" +:+ f +:+ ".csv") = f.
Proof.
  unfold stem_of.
  replace (String.length ("/tmp/tmp" +:+ f +:+ ".csv") - 12) with (String.length f)
    by (rewrite !length_append; simpl; lia).
  simpl. change (EmptyString +:+ (f +:+ ".csv")) with (f +:+ ".csv"). apply substring_prefix.
Qed.

(** The name of a new temporary file is the name of no existing file. *)
Lemma tmp_name_fresh (w : world) : w_fs w !! tmp_name w = None.
Proof.
  apply not_elem_of_dom. intros Hin.
  apply (elem_of_map_2 (D:=gset string) stem_of) in Hin.
  unfold tmp_name in Hin. rewrite stem_of_tmp in Hin.
  by apply is_fresh in Hin.
Qed.

Lemma strip_prefix_app (pre f : string) : strip_prefix pre (pre +:+ f) = Some f.
Proof.
  induction pre as [|c pre IH]; simpl; [by destruct f|].
  by rewrite decide_True.
Qed.

Lemma strip_prefix_Some (pre s f : string) :
  strip_prefix pre s = Some f → s = pre +:+ f.
Proof.
  revert s. induction pre as [|c pre IH]; intros s H; simpl in *.
  - by injection H as ->.
  - destruct s as [|b s]; [done|]. case_decide; [|done]. subst.
    change (String b pre +:+ f) with (String b (pre +:+ f)).
    f_equal. by apply IH.
Qed.

Lemma has_slash_app (a b : string) :
  has_slash (a +:+ b) = has_slash a || has_slash b.
Proof. induction a as [|c a IH]; simpl; [done | by case_decide]. Qed.

Lemma basename_no_slash (f : string) : has_slash f = false → os_path_basename f = f.
Proof.
  destruct f as [|c f]; simpl; [done|].
  case_decide; [done|]. by intros ->.
Qed.

Lemma basename_after_slash (d f : string) :
  has_slash f = false → os_path_basename (d +:+ "/" +:+ f) = f.
Proof.
  intros Hf. induction d as [|c d IH].
  - change (EmptyString +:+ "/" +:+ f) with (String "/"%char f). simpl. by rewrite Hf.
  - change (String c d +:+ "/" +:+ f) with (String c (d +:+ "/" +:+ f)).
    simpl. rewrite has_slash_app. simpl. by rewrite orb_true_r.
Qed.

(** A task names its record by the entry name under the directory. *)
Lemma basename_join (f : string) :
  f ≠ EmptyString → has_slash f = false →
  os_path_basename (os_path_join debate_path f) = f.
Proof.
  intros Hne Hf. unfold os_path_join.
  destruct f as [|c f]; [done|].
  destruct (decide (c = "/"%char)) as [->|Hc].
  { simpl in Hf. done. }
  assert (os_path_join debate_path (String c f) = debate_path +:+ "/" +:+ String c f) as E.
  { unfold os_path_join. destruct c as [[] [] [] [] [] [] [] []]; try done. }
  unfold os_path_join in E. rewrite E. by apply basename_after_slash.
Qed.

(** ** One task *)

Section Task.

Variable json_load : string → py json.
Variable to_csv : list row → py string.
Variable dialign : string → string → string → py dialign_out.

Abbreviation body := (process_body json_load to_csv dialign).
Abbreviation task := (process_one_file json_load to_csv dialign).
Abbreviation load := (load_record json_load).
Abbreviation aligned := (align dialign).

(** The [try] block, stage by stage. *)
Lemma process_body_stages (path : string) (w : world) :
  body path w =
  match load path w with
  | inl e => (w, inl e)
  | inr (comet_score, data) =>
      match to_csv data with
      | inl e => (set_fs <[tmp_name w := File EmptyString]> w, at_line pof 52 (inl e))
      | inr csv =>
          (after_task w (tmp_name w) csv,
           out ← aligned csv; metrics_of path comet_score out)
      end
  end.
Proof.
  unfold process_body, load_record, open_read, here, at_lineM, lift.
  unfold mbind, M_bind, py_bind, mret, M_ret, py_ret.
  destruct (w_fs w !! path) as [[content| |]|] eqn:Hp; simpl; try done.
  destruct (json_load content) as [e|debate]; simpl; [done|].
  destruct (getitem debate "comet score") as [e|comet_score]; simpl; [done|].
  destruct (build_turns_from_debate debate) as [e|data]; simpl; [done|].
  unfold DataFrame_to_csv, NamedTemporaryFile. simpl.
  destruct (to_csv data) as [e|csv]; simpl; [done|].
  unfold try_finally, try_pass, os_remove, dialign_run, align, metrics_of. simpl.
  rewrite !lookup_insert_eq. simpl.
  rewrite insert_insert_eq.
  assert (Hfs : delete (tmp_name w) (<[tmp_name w:=File csv]> (w_fs w)) = w_fs w)
    by (apply delete_insert_id, tmp_name_fresh).
  unfold after_task, set_fs, pof.
  unfold mbind, py_bind, mret, py_ret.
  case_decide; simpl; rewrite ?Hfs;
    destruct (dialign csv "Speaker" "Utterance") as [e|out]; simpl; try done.
  all: repeat match goal with
       | |- context [match at_line ?f ?n ?x with _ => _ end] =>
           destruct (at_line f n x); simpl; try done
       end.
Qed.

Lemma body_outcome (path : string) (w : world) : (body path w).2 = outcome json_load to_csv dialign path w.
Proof.
  rewrite process_body_stages. unfold outcome, mbind, py_bind.
  destruct (load path w) as [e|[comet_score data]]; [done|].
  by destruct (to_csv data) as [e|csv].
Qed.

Lemma task_result_eq (path : string) (w : world) :
  (task path w).2 = as_result path ((body path w).2).
Proof. unfold process_one_file. by destruct (body path w) as [w' [e|s]]. Qed.

Lemma task_world_eq (path : string) (w : world) :
  (task path w).1 = (body path w).1.
Proof. unfold process_one_file. by destruct (body path w) as [w' [e|s]]. Qed.

(** What a task reads of the world is the record file alone. *)
Lemma load_depends_on_record (path : string) (w1 w2 : world) :
  w_fs w1 !! path = w_fs w2 !! path → load path w1 = load path w2.
Proof.
  intros H. unfold load_record, open_read. rewrite H.
  by destruct (w_fs w2 !! path) as [[content| |]|].
Qed.

Lemma outcome_depends_on_record (path : string) (w1 w2 : world) :
  w_fs w1 !! path = w_fs w2 !! path →
  outcome json_load to_csv dialign path w1 = outcome json_load to_csv dialign path w2.
Proof. intros H. unfold outcome. by rewrite (load_depends_on_record _ _ _ H). Qed.

Lemma task_depends_on_record (path : string) (w1 w2 : world) :
  w_fs w1 !! path = w_fs w2 !! path → (task path w1).2 = (task path w2).2.
Proof.
  intros H. rewrite !task_result_eq, !body_outcome.
  by rewrite (outcome_depends_on_record _ _ _ H).
Qed.

(** A task leaves every existing file as it was. *)
Lemma task_keeps_files (path : string) (w : world) :
  w_fs w ⊆ w_fs (task path w).1.
Proof.
  rewrite task_world_eq, process_body_stages.
  destruct (load path w) as [e|[comet_score data]]; simpl; [done|].
  destruct (to_csv data) as [e|csv]; simpl.
  - apply insert_subseteq, tmp_name_fresh.
  - case_decide; [|done]. apply insert_subseteq, tmp_name_fresh.
Qed.

Lemma task_keeps_locked (path : string) (w : world) :
  w_locked (task path w).1 = w_locked w.
Proof.
  rewrite task_world_eq, process_body_stages.
  destruct (load path w) as [e|[comet_score data]]; simpl; [done|].
  by destruct (to_csv data) as [e|csv].
Qed.


Lemma task_names_file (path : string) (w : world) :
  file (task path w).2 = os_path_basename path.
Proof.
  rewrite task_result_eq, body_outcome.
  destruct (outcome _ _ _ path w) as [e|s] eqn:Ho; [done|]. simpl.
  unfold outcome, mbind, py_bind in Ho.
  destruct (load path w) as [e|[c data]]; [done|].
  destruct (at_line pof 52 (to_csv data)) as [e|csv]; [done|].
  destruct (aligned csv) as [e|out]; [done|].
  unfold metrics_of, mbind, py_bind in Ho.
  repeat match type of Ho with
         | match at_line ?f ?n ?x with _ => _ end = _ =>
             destruct (at_line f n x); [done|]
         end.
  by injection Ho as <-.
Qed.

End Task.

(** ** The turn table *)

Lemma at_line_inr {A} (fn : string) (n : nat) (m : py A) (a : A) :
  at_line fn n m = inr a ↔ m = inr a.
Proof. destruct m; simpl; split; congruence. Qed.

Lemma raises_at_line {A} (fn : string) (n : nat) (m : py A) :
  raises (at_line fn n m) = raises m.
Proof. by destruct m. Qed.

Lemma bind_inr {A B} (m : py A) (k : A → py B) (b : B) :
  m ≫= k = inr b ↔ ∃ a, m = inr a ∧ k a = inr b.
Proof.
  destruct m as [e|a]; simpl; split.
  - done.
  - by intros (a & ? & _).
  - eauto.
  - by intros (a' & [= <-] & ?).
Qed.

(** The loop appends one row per element, in order, labelled by the parity
    of its index. *)
Lemma alternate_spec (utts : list json) (i : nat) (data turns : list row) :
  alternate i utts data = inr turns →
  length turns = length data + length utts ∧
  (∀ j, j < length data → turns !! j = data !! j) ∧
  (∀ j utt, utts !! j = Some utt →
     ∃ c, getitem utt "content" = inr c ∧
          turns !! (length data + j) = Some (Row (speaker_at (i + j)) c)).
Proof.
  revert i data. induction utts as [|utt utts IH]; intros i data H; simpl in H.
  - injection H as <-. split_and!; [simpl; lia|done|]. intros j u Hj. done.
  - apply bind_inr in H as (c & Hc%at_line_inr & H).
    apply IH in H as (Hlen & Hold & Hnew).
    rewrite length_app in Hlen, Hold, Hnew. simpl in *.
    split_and!.
    + lia.
    + intros j Hj. rewrite Hold by lia. by rewrite lookup_app_l.
    + intros [|j] u Hj; simpl in Hj.
      * injection Hj as <-. exists c. split; [done|].
        rewrite Hold by lia. rewrite !Nat.add_0_r.
        by rewrite list_lookup_middle.
      * destruct (Hnew j u Hj) as (c' & Hc' & Hl). exists c'. split; [done|].
        by replace (length data + S j) with (length data + 1 + j) by lia;
           replace (i + S j) with (S i + j) by lia.
Qed.

(** What a successful reconstruction looked up. *)
Lemma build_turns_inv (debate : json) (turns : list row) :
  build_turns_from_debate debate = inr turns →
  ∃ aff turn seed neg utts,
    side debate "Affirmative side" = inr aff ∧
    getindex aff 5 = inr turn ∧
    getitem turn "content" = inr seed ∧
    side debate "Negative side" = inr neg ∧
    slice_from neg 2 = inr utts ∧
    alternate 0 utts [Row "Affirmative side" seed] = inr turns.
Proof.
  unfold build_turns_from_debate, side. intros H.
  apply bind_inr in H as (seed & Hseed%at_line_inr & H).
  apply bind_inr in H as (utts & Hutts%at_line_inr & H).
  apply bind_inr in Hseed as (players & Hp & Hseed).
  apply bind_inr in Hseed as (aff & Haff & Hseed).
  apply bind_inr in Hseed as (turn & Hturn & Hseed).
  apply bind_inr in Hutts as (players' & Hp' & Hutts).
  apply bind_inr in Hutts as (neg & Hneg & Hutts).
  assert (players' = players) as -> by congruence.
  exists aff, turn, seed, neg, utts. rewrite Hp. by split_and!.
Qed.


(** ** The batch *)

Lemma child_name_Some (d path f : string) :
  child_name d path = Some f ↔ path = d +:+ "/" +:+ f ∧ f ≠ EmptyString ∧ has_slash f = false.
Proof.
  unfold child_name. split.
  - destruct (strip_prefix (d +:+ "/") path) as [g|] eqn:Hs; [|done].
    apply strip_prefix_Some in Hs.
    case_decide; [done|]. destruct (has_slash g) eqn:Hg; [done|].
    intros [= <-]. split_and!; [|done..].
    rewrite Hs. clear. induction d as [|c d IH]; [done|].
    change (String c d +:+ "/" +:+ g) with (String c (d +:+ "/" +:+ g)).
    change ((String c d +:+ "/") +:+ g) with (String c ((d +:+ "/") +:+ g)).
    by rewrite IH.
  - intros (-> & Hne & Hf).
    assert (d +:+ "/" +:+ f = (d +:+ "/") +:+ f) as ->.
    { clear. induction d as [|c d IH]; [done|].
      change (String c d +:+ "/" +:+ f) with (String c (d +:+ "/" +:+ f)).
      change ((String c d +:+ "/") +:+ f) with (String c ((d +:+ "/") +:+ f)).
      by rewrite IH. }
    rewrite strip_prefix_app, decide_False, Hf; done.
Qed.

Lemma join_child (f : string) :
  f ≠ EmptyString → has_slash f = false →
  os_path_join debate_path f = debate_path +:+ "/" +:+ f.
Proof.
  intros Hne Hf. destruct f as [|c f]; [done|].
  simpl in Hf. case_decide as Hc; [done|].
  unfold os_path_join. destruct c as [[] [] [] [] [] [] [] []]; done.
Qed.

Lemma join_child_name (path f : string) :
  child_name debate_path path = Some f → os_path_join debate_path f = path.
Proof.
  intros (-> & Hne & Hf)%child_name_Some. by apply join_child.
Qed.

Lemma joined_children (keys : list string) :
  os_path_join debate_path <$> omap (child_name debate_path) keys =
  filter (λ k, is_Some (child_name debate_path k)) keys.
Proof.
  induction keys as [|k keys IH]; [done|].
  change (omap (child_name debate_path) (k :: keys)) with
    (match child_name debate_path k with
     | Some f => f :: omap (child_name debate_path) keys
     | None => omap (child_name debate_path) keys
     end).
  destruct (child_name debate_path k) as [f|] eqn:Hk.
  - rewrite filter_cons_True by (by rewrite Hk).
    by rewrite fmap_cons, IH, (join_child_name _ _ Hk).
  - rewrite filter_cons_False by (rewrite Hk; by intros [? ?]). done.
Qed.

(** The files found are the regular files directly under the directory,
    each one once. *)
Lemma record_files_spec (w : world) (p : string) :
  p ∈ record_files w ↔
  ∃ f, p = debate_path +:+ "/" +:+ f ∧ f ≠ EmptyString ∧ has_slash f = false ∧
       os_path_isfile w p = true.
Proof.
  unfold record_files. rewrite joined_children, !list_elem_of_filter.
  split.
  - intros (Hf & [f Hc] & _). apply child_name_Some in Hc as (-> & ? & ?). eauto.
  - intros (f & -> & Hne & Hs & Hf). split_and!; [done| |].
    + exists f. by apply child_name_Some.
    + unfold os_path_isfile in Hf.
      destruct (w_fs w !! (debate_path +:+ "/" +:+ f)) as [n|] eqn:Hn; [|done].
      apply list_elem_of_fmap. exists (debate_path +:+ "/" +:+ f, n).
      split; [done|]. by apply elem_of_map_to_list.
Qed.

Lemma record_files_NoDup (w : world) : NoDup (record_files w).
Proof.
  unfold record_files. rewrite joined_children.
  do 2 apply NoDup_filter. apply NoDup_fst_map_to_list.
Qed.

Lemma record_files_exist (w : world) (p : string) :
  p ∈ record_files w → is_Some (w_fs w !! p).
Proof.
  unfold record_files. rewrite list_elem_of_filter. intros [Hf _].
  unfold os_path_isfile in Hf. by destruct (w_fs w !! p).
Qed.

Section Batch.

Variable json_load : string → py json.
Variable to_csv : list row → py string.
Variable dialign : string → string → string → py dialign_out.

Abbreviation body := (process_body json_load to_csv dialign).
Abbreviation task := (process_one_file json_load to_csv dialign).
Abbreviation collected := (collect json_load to_csv dialign).
Abbreviation batch := (main json_load to_csv dialign).

Lemma gather_files_eq (w : world) :
  w_fs w !! debate_path = Some Dir → gather_files w = (w, inr (record_files w)).
Proof. intros H. unfold gather_files, os_listdir. by rewrite H. Qed.

Lemma collect_cons_returns (p : string) rest acc (w : world) :
  ∃ w', collected ((p, Returns) :: rest) acc w =
          collected rest (acc ++ [(task p w).2]) w' ∧
        w_fs w' = w_fs (task p w).1 ∧ w_locked w' = w_locked (task p w).1.
Proof.
  simpl. unfold mbind, M_bind.
  destruct (task p w) as [w1 r]. simpl.
  destruct (ok r); simpl; eexists; (split; [reflexivity|done]).
Qed.

(** When every worker returns, the loop collects, in the order of
    completion, the result that each task has on the initial world. *)
Lemma collect_all_return futures acc (w0 w : world) :
  w_fs w0 ⊆ w_fs w →
  (∀ x, x ∈ futures → x.2 = Returns ∧ is_Some (w_fs w0 !! x.1)) →
  ∃ w', collected futures acc w =
          (w', inr (acc ++ ((λ p, (task p w0).2) <$> futures.*1))%list) ∧
        w_fs w0 ⊆ w_fs w'.
Proof.
  revert acc w. induction futures as [|[p f] rest IH]; intros acc w Hsub Hall.
  - exists w. simpl. by rewrite app_nil_r.
  - destruct (Hall (p, f)) as [Hf [n Hn]]; [left|]. simpl in Hf, Hn. subst f.
    destruct (collect_cons_returns p rest acc w) as (w1 & -> & Hfs & _).
    destruct (IH (acc ++ [(task p w).2]) w1) as (w' & Hc & Hsub').
    + rewrite Hfs. etrans; [done|]. apply task_keeps_files.
    + intros x Hx. apply Hall. by right.
    + exists w'. split; [|done]. rewrite Hc. f_equal. f_equal.
      rewrite <- app_assoc. simpl. do 2 f_equal.
      apply task_depends_on_record.
      rewrite Hn. by apply (lookup_weaken _ _ _ _ Hn).
Qed.

(** A future whose worker died stops the loop: [fut.result()] raises. *)
Lemma collect_crash futures acc (w : world) :
  (∃ p, (p, Crashes) ∈ futures) →
  ∃ w' e, collected futures acc w = (w', inl e) ∧ exn_class e = "BrokenProcessPool".
Proof.
  revert acc w. induction futures as [|[p f] rest IH]; intros acc w [q Hq].
  - by apply elem_of_nil in Hq.
  - destruct f.
    + destruct (collect_cons_returns p rest acc w) as (w1 & -> & _ & _).
      apply IH. exists q. apply elem_of_cons in Hq as [[=]|]; done.
    + simpl. by eexists _, _.
Qed.




(** When every worker returns, [main] returns the results collected in the
    order of completion; each is the result the task has on its own. *)
Lemma main_all_return (w : world) (as_completed : list string → list (string * fate)) :
  w_fs w !! debate_path = Some Dir →
  (as_completed (record_files w)).*1 ≡ₚ record_files w →
  (∀ x, x ∈ as_completed (record_files w) → x.2 = Returns) →
  ∃ w' results,
    batch as_completed w = (w', inr (results, build_series results)) ∧
    results = (λ p, (task p w).2) <$> (as_completed (record_files w)).*1 ∧
    w_fs w ⊆ w_fs w'.
Proof.
  intros Hdir Hperm Hret. unfold main, mbind, M_bind.
  rewrite (gather_files_eq _ Hdir).
  destruct (collect_all_return (as_completed (record_files w)) [] w w)
    as (w' & Hc & Hsub); [done| |].
  - intros x Hx. split; [by apply Hret|].
    apply record_files_exist. rewrite <- Hperm.
    apply list_elem_of_fmap. by exists x.
  - rewrite Hc. simpl. by eexists _, _.
Qed.

(** A dead worker makes [main] raise. *)
Lemma main_crash (w : world) (as_completed : list string → list (string * fate)) :
  w_fs w !! debate_path = Some Dir →
  (∃ p, (p, Crashes) ∈ as_completed (record_files w)) →
  ∃ w' e, batch as_completed w = (w', inl e) ∧ exn_class e = "BrokenProcessPool".
Proof.
  intros Hdir Hcrash. unfold main, mbind, M_bind.
  rewrite (gather_files_eq _ Hdir).
  destruct (collect_crash _ [] w Hcrash) as (w' & e & -> & He).
  by exists w', e.
Qed.




End Batch.

(** * The claims *)

(** ** Turn tables *)

(** C3, as stated, fails on a record whose Negative side has fewer than two
    entries: the slice [[2:]] of such a list is empty, so the table has the
    seed row alone, while [1 + (0 - 2)] is negative. *)
Lemma turns_length_short_negative :
  side Sample.debate_neg0 "Negative side" = inr (JArr []) ∧
  ∃ turns,
    build_turns_from_debate Sample.debate_neg0 = inr turns ∧
    length turns = 1 ∧
    Z.of_nat (length turns) ≠ (1 + (Z.of_nat (length (@nil json)) - 2))%Z.
Proof.
  split; [reflexivity|].
  eexists. split; [reflexivity|]. split; [reflexivity|]. simpl. lia.
Qed.

(** C3 (amended): for every record whose Negative side is a list and from
    which a turn table is built, the table has [1 + max(0, n - 2)] rows for
    a Negative side of [n] entries; that is [1 + (n - 2)] rows when [n] is at
    least 2, and the seed row alone when [n] is 2. *)
Theorem turns_length (debate : json) (neg : list json) (turns : list row) :
  side debate "Negative side" = inr (JArr neg) →
  build_turns_from_debate debate = inr turns →
  Z.of_nat (length turns) = (1 + Z.max 0 (Z.of_nat (length neg) - 2))%Z ∧
  (2 ≤ length neg → Z.of_nat (length turns) = (1 + (Z.of_nat (length neg) - 2))%Z) ∧
  (length neg = 2 → ∃ seed, turns = [Row "Affirmative side" seed]).
Proof.
  intros Hneg Hb.
  apply build_turns_inv in Hb
    as (aff & turn & seed & neg' & utts & _ & _ & _ & Hneg' & Hutts & Halt).
  rewrite Hneg in Hneg'. injection Hneg' as <-.
  simpl in Hutts. injection Hutts as <-.
  pose proof Halt as (Hlen & _ & _)%alternate_spec.
  rewrite length_drop in Hlen. simpl in Hlen.
  split_and!; [lia..|].
  intros H2. exists seed.
  destruct neg as [|a [|b [|c neg]]]; try done.
  simpl in Halt. by injection Halt as <-.
Qed.

Lemma turns_length_witness :
  let turns := [Row "Affirmative side" (JStr "aff 5");
                Row "Negative side" (JStr "neg 2");
                Row "Affirmative side" (JStr "neg 3")] in
  side Sample.debate_ok "Negative side" = inr (JArr (Sample.negative 4)) ∧
  build_turns_from_debate Sample.debate_ok = inr turns ∧
  Z.of_nat (length turns) = (1 + Z.max 0 (Z.of_nat (length (Sample.negative 4)) - 2))%Z.
Proof.
  split; [reflexivity|]. split; [reflexivity|].
  exact (proj1 (turns_length Sample.debate_ok (Sample.negative 4) _ eq_refl eq_refl)).
Defined.

(** C4: in the table built from a record whose Negative side is a list, row
    0 is labelled "Affirmative side"; row [i + 1] exists exactly when the
    Negative side has an entry at index [i + 2], holds the content of that
    entry, and is labelled "Negative side" for even [i] and "Affirmative
    side" for odd [i]. *)
Theorem turns_alternate (debate : json) (neg : list json) (turns : list row) :
  side debate "Negative side" = inr (JArr neg) →
  build_turns_from_debate debate = inr turns →
  Speaker <$> turns !! 0 = Some "Affirmative side" ∧
  (∀ i, i + 1 < length turns ↔ is_Some (neg !! (i + 2))) ∧
  (∀ i utt, neg !! (i + 2) = Some utt →
     ∃ c, getitem utt "content" = inr c ∧
          turns !! (i + 1) =
            Some (Row (if Nat.even i then "Negative side" else "Affirmative side") c)).
Proof.
  intros Hneg Hb.
  apply build_turns_inv in Hb
    as (aff & turn & seed & neg' & utts & _ & _ & _ & Hneg' & Hutts & Halt).
  rewrite Hneg in Hneg'. injection Hneg' as <-.
  simpl in Hutts. injection Hutts as <-.
  apply alternate_spec in Halt as (Hlen & Hold & Hnew).
  rewrite length_drop in Hlen. simpl in Hlen, Hold, Hnew.
  split_and!.
  - by rewrite (Hold 0) by lia.
  - intros i. rewrite lookup_lt_is_Some. lia.
  - intros i utt Hi. destruct (Hnew i utt) as (c & Hc & Hl).
    + rewrite lookup_drop. by rewrite Nat.add_comm.
    + exists c. split; [done|]. by rewrite Nat.add_1_r.
Qed.

Lemma turns_alternate_witness :
  let turns := [Row "Affirmative side" (JStr "aff 5");
                Row "Negative side" (JStr "neg 2");
                Row "Affirmative side" (JStr "neg 3")] in
  side Sample.debate_ok "Negative side" = inr (JArr (Sample.negative 4)) ∧
  build_turns_from_debate Sample.debate_ok = inr turns ∧
  turns !! 1 = Some (Row "Negative side" (JStr "neg 2")) ∧
  turns !! 2 = Some (Row "Affirmative side" (JStr "neg 3")).
Proof.
  split; [reflexivity|]. split; [reflexivity|].
  destruct (turns_alternate Sample.debate_ok (Sample.negative 4) _ eq_refl eq_refl)
    as (_ & _ & Hrows).
  split.
  - destruct (Hrows 0 _ eq_refl) as (c & Hc & Hrow).
    injection Hc as <-. exact Hrow.
  - destruct (Hrows 1 _ eq_refl) as (c & Hc & Hrow).
    injection Hc as <-. exact Hrow.
Defined.

(** ** Tasks and batches *)

Section Claims.

Variable json_load : string → py json.
Variable to_csv : list row → py string.
Variable dialign : string → string → string → py dialign_out.

Abbreviation body := (process_body json_load to_csv dialign).
Abbreviation task := (process_one_file json_load to_csv dialign).
Abbreviation batch := (main json_load to_csv dialign).




(** C7: a task that succeeds has called the alignment routine once, on the
    temporary file holding the table rendered from the turns of its record,
    with the labels "Speaker" and "Utterance"; its result carries the
    record's "comet score" and, from what the routine returned, the global
    ER and EE, the ER and EE of both sides and the Affirmative side's
    Initiated. *)
Theorem success_calls_dialign_once (w : world) (path : string) (s : success) :
  (task path w).2 = Success s →
  ∃ content debate data csv out aff neg,
    w_fs w !! path = Some (File content) ∧
    json_load content = inr debate ∧
    build_turns_from_debate debate = inr data ∧
    to_csv data = inr csv ∧
    w_calls (task path w).1 =
      w_calls w ++ [Call (tmp_name w) "Speaker" "Utterance" (Some csv)] ∧
    dialign csv "Speaker" "Utterance" = inr out ∧
    ok_file s = os_path_basename path ∧
    getitem debate "comet score" = inr (comet s) ∧
    getitem (speaker_independent out) "ER" = inr (er s) ∧
    getitem (speaker_independent out) "EE" = inr (ee s) ∧
    getitem (speaker_dependent out) "Affirmative side" = inr aff ∧
    getitem (speaker_dependent out) "Negative side" = inr neg ∧
    getitem aff "ER" = inr (aff_rep s) ∧
    getitem neg "ER" = inr (neg_rep s) ∧
    getitem aff "EE" = inr (aff_est s) ∧
    getitem neg "EE" = inr (neg_est s) ∧
    getitem aff "Initiated" = inr (aff_init s).
Proof.
  intros Hs. rewrite task_result_eq in Hs. rewrite task_world_eq.
  rewrite process_body_stages in *.
  unfold load_record, open_read in *.
  destruct (w_fs w !! path) as [[content| |]|] eqn:Hp; simpl in Hs; try done.
  simpl.
  destruct (at_line pof 44 (json_load content)) as [e|debate] eqn:Hd; [done|].
  apply at_line_inr in Hd. simpl in *.
  destruct (at_line pof 46 (getitem debate "comet score")) as [e|c] eqn:Hc; [done|].
  apply at_line_inr in Hc. simpl in *.
  destruct (at_line pof 47 (build_turns_from_debate debate)) as [e|data] eqn:Hb; [done|].
  apply at_line_inr in Hb. simpl in *.
  destruct (to_csv data) as [e|csv] eqn:Hcsv; [done|]. simpl in *.
  destruct (align dialign csv) as [e|out] eqn:Ho; [done|].
  apply at_line_inr in Ho. simpl in Hs.
  unfold metrics_of in Hs.
  destruct (at_line pof 69 _) as [e|v1] eqn:H1 in Hs; [done|]. simpl in Hs.
  destruct (at_line pof 70 _) as [e|v2] eqn:H2 in Hs; [done|]. simpl in Hs.
  destruct (at_line pof 71 _) as [e|v3] eqn:H3 in Hs; [done|]. simpl in Hs.
  destruct (at_line pof 72 _) as [e|v4] eqn:H4 in Hs; [done|]. simpl in Hs.
  destruct (at_line pof 73 _) as [e|v5] eqn:H5 in Hs; [done|]. simpl in Hs.
  destruct (at_line pof 74 _) as [e|v6] eqn:H6 in Hs; [done|]. simpl in Hs.
  destruct (at_line pof 75 _) as [e|v7] eqn:H7 in Hs; [done|]. simpl in Hs.
  injection Hs as <-. simpl.
  apply at_line_inr in H1, H2, H3, H4, H5, H6, H7.
  apply bind_inr in H3 as (aff & Haff & H3).
  apply bind_inr in H4 as (neg & Hneg & H4).
  apply bind_inr in H5 as (aff' & Haff' & H5).
  apply bind_inr in H6 as (neg' & Hneg' & H6).
  apply bind_inr in H7 as (aff'' & Haff'' & H7).
  assert (aff' = aff) as -> by congruence.
  assert (aff'' = aff) as -> by congruence.
  assert (neg' = neg) as -> by congruence.
  exists content, debate, data, csv, out, aff, neg. by split_and!.
Qed.

(** C8: the result of a task does not depend on whether the system denies
    the removal of its temporary file.  A task whose [try] block returns
    when the removal is allowed returns the same success when the removal is
    denied, although [os.remove] then raises and the file stays. *)
Theorem removal_failure_swallowed (w : world) (path : string) (locked : gset string) :
  (task path (with_locked locked w)).2 = (task path w).2 ∧
  ∀ s, (body path (with_locked ∅ w)).2 = inr s →
       tmp_name w ∈ w_locked w →
       (task path w).2 = Success s ∧
       raises (os_remove (tmp_name w) (task path w).1).2 = true ∧
       is_Some (w_fs (task path w).1 !! tmp_name w).
Proof.
  split; [by apply task_depends_on_record|].
  intros s Hs Hl.
  assert (Hr : (task path w).2 = Success s).
  { rewrite (task_depends_on_record _ _ _ path w (with_locked ∅ w) eq_refl).
    by rewrite task_result_eq, Hs. }
  split; [done|].
  rewrite task_result_eq in Hr. rewrite task_world_eq.
  rewrite process_body_stages in *.
  destruct (load_record json_load path w) as [e|[c data]]; [done|].
  destruct (to_csv data) as [e|csv]; [done|].
  unfold os_remove, after_task. simpl.
  destruct (decide (tmp_name w ∈ w_locked w)) as [_|]; [|done].
  rewrite lookup_insert_eq. simpl.
  by destruct (decide (tmp_name w ∈ w_locked w)).
Qed.

(** C9 (amended): when the directory exists and the worker of some future
    dies, [fut.result()] raises [BrokenProcessPool] in the loop of [main],
    which does not catch it: [main] raises and returns no result. *)
Theorem worker_crash_aborts (w : world) (as_completed : list string → list (string * fate)) :
  w_fs w !! debate_path = Some Dir →
  (∃ p, (p, Crashes) ∈ as_completed (record_files w)) →
  ∃ w' e, batch as_completed w = (w', inl e) ∧ exn_class e = "BrokenProcessPool".
Proof. apply main_crash. Qed.


End Claims.

(** C6: the eight series have one entry per success among the results, and
    the entries at one index all come from the same success. *)
Theorem series_aligned (results : list task_result) :
  let s := build_series results in
  let n := length (filter (λ r, ok r = true) results) in
  (length (comet_scores s) = n ∧ length (ers s) = n ∧ length (ees s) = n ∧
   length (affirmative_repetitions s) = n ∧ length (negative_repetitions s) = n ∧
   length (affirmative_establishments s) = n ∧
   length (negative_establishments s) = n ∧
   length (affirmative_initiated s) = n) ∧
  ∀ i, i < n →
    ∃ r, Success r ∈ results ∧
         comet_scores s !! i = Some (comet r) ∧
         ers s !! i = Some (er r) ∧
         ees s !! i = Some (ee r) ∧
         affirmative_repetitions s !! i = Some (aff_rep r) ∧
         negative_repetitions s !! i = Some (neg_rep r) ∧
         affirmative_establishments s !! i = Some (aff_est r) ∧
         negative_establishments s !! i = Some (neg_est r) ∧
         affirmative_initiated s !! i = Some (aff_init r).
Proof.
  intros s n.
  assert (Hn : length (oks results) = n).
  { subst n. clear. induction results as [|[r|f] results IH]; [done|..].
    - rewrite filter_cons_True by done.
      change (oks (Success r :: results)) with (r :: oks results).
      simpl. by rewrite IH.
    - rewrite filter_cons_False by done.
      by change (oks (Failure f :: results)) with (oks results). }
  split.
  - subst s. unfold build_series. simpl. rewrite !length_fmap. by split_and!.
  - intros i Hi. rewrite <- Hn in Hi.
    apply lookup_lt_is_Some in Hi as [r Hr].
    exists r. split.
    + apply list_elem_of_lookup_2 in Hr. unfold oks in Hr.
      apply list_elem_of_omap in Hr as (x & Hx & Hs).
      destruct x as [r'|f]; [|done]. by injection Hs as ->.
    + subst s. unfold build_series. simpl.
      rewrite !list_lookup_fmap, Hr. by split_and!.
Qed.


(** ** The claims on the sample directory *)

Lemma sample_files :
  record_files Sample.world0 = ["MAD_Debate_Process/a.json"; "MAD_Debate_Process/b.json"].
Proof. vm_compute. reflexivity. Qed.




(** The same file stays behind when the table cannot be written: the
    [with] block is left by the exception before the [try] whose [finally]
    removes the file. *)
Lemma temporary_file_leaks_on_write_failure :
  let task := process_one_file Sample.json_load Sample.to_csv_full Sample.dialign
                "MAD_Debate_Process/a.json" Sample.world1 in
  ok task.2 = false ∧
  w_fs Sample.world1 !! "/tmp/tmp0.csv" = None ∧
  w_fs task.1 !! "/tmp/tmp0.csv" = Some (File EmptyString).
Proof. vm_compute. by split_and!. Qed.


Lemma success_calls_dialign_once_witness :
  let s := Ok "a.json" (JFloat (17 # 20)) (JInt 1) (JInt 2) (JInt 3) (JInt 6)
              (JInt 4) (JInt 7) (JInt 5) in
  let task := process_one_file Sample.json_load Sample.to_csv Sample.dialign
                "MAD_Debate_Process/a.json" Sample.world1 in
  task.2 = Success s ∧
  ∃ csv, w_calls task.1 =
           w_calls Sample.world1 ++
           [Call (tmp_name Sample.world1) "Speaker" "Utterance" (Some csv)].
Proof.
  intros s task.
  assert (Hs : task.2 = Success s) by (vm_compute; reflexivity).
  split; [exact Hs|].
  destruct (success_calls_dialign_once Sample.json_load Sample.to_csv Sample.dialign
              Sample.world1 "MAD_Debate_Process/a.json" s Hs)
    as (content & debate & data & csv & out & aff & neg & _ & _ & _ & _ & Hcalls & _).
  exists csv. exact Hcalls.
Defined.

Lemma removal_failure_swallowed_witness :
  let s := Ok "a.json" (JFloat (17 # 20)) (JInt 1) (JInt 2) (JInt 3) (JInt 6)
              (JInt 4) (JInt 7) (JInt 5) in
  (process_body Sample.json_load Sample.to_csv Sample.dialign
     "MAD_Debate_Process/a.json" (with_locked ∅ Sample.world1_locked)).2 = inr s ∧
  tmp_name Sample.world1_locked ∈ w_locked Sample.world1_locked ∧
  (process_one_file Sample.json_load Sample.to_csv Sample.dialign
     "MAD_Debate_Process/a.json" Sample.world1_locked).2 = Success s.
Proof.
  intros s.
  assert (Hs : (process_body Sample.json_load Sample.to_csv Sample.dialign
                  "MAD_Debate_Process/a.json"
                  (with_locked ∅ Sample.world1_locked)).2 = inr s)
    by (vm_compute; reflexivity).
  assert (Hl : tmp_name Sample.world1_locked ∈ w_locked Sample.world1_locked).
  { replace (tmp_name Sample.world1_locked) with "/tmp/tmp0.csv"
      by (vm_compute; reflexivity).
    change ("/tmp/tmp0.csv" ∈ ({[ "/tmp/tmp0.csv" ]} : gset string)).
    by apply elem_of_singleton_2. }
  split; [exact Hs|]. split; [exact Hl|].
  exact (proj1 (proj2 (removal_failure_swallowed Sample.json_load Sample.to_csv
                         Sample.dialign Sample.world1_locked
                         "MAD_Debate_Process/a.json" ∅) s Hs Hl)).
Defined.

(** C9, as stated, fails: when the worker of the only file dies, [main]
    raises [BrokenProcessPool] and there is no result, so no failure result
    for that file. *)
Lemma worker_crash_not_surfaced :
  record_files Sample.world1 = ["MAD_Debate_Process/a.json"] ∧
  (main Sample.json_load Sample.to_csv Sample.dialign Sample.all_crash Sample.world1).2 =
    inl (Exn "BrokenProcessPool"
           "A process in the process pool was terminated abruptly while the future was running or pending."
           [("main", 99)]) ∧
  ¬ ∃ results series f,
      (main Sample.json_load Sample.to_csv Sample.dialign Sample.all_crash
         Sample.world1).2 = inr (results, series) ∧
      Failure f ∈ results ∧ err_file f = "a.json".
Proof.
  assert (H : (main Sample.json_load Sample.to_csv Sample.dialign Sample.all_crash
                 Sample.world1).2 =
              inl (Exn "BrokenProcessPool"
                     "A process in the process pool was terminated abruptly while the future was running or pending."
                     [("main", 99)])) by (vm_compute; reflexivity).
  split; [vm_compute; reflexivity|]. split; [exact H|].
  intros (results & series & f & Hr & _). rewrite H in Hr. discriminate.
Qed.

Lemma worker_crash_aborts_witness :
  w_fs Sample.world1 !! debate_path = Some Dir ∧
  ("MAD_Debate_Process/a.json", Crashes) ∈ Sample.all_crash (record_files Sample.world1) ∧
  ∃ w' e,
    main Sample.json_load Sample.to_csv Sample.dialign Sample.all_crash Sample.world1 =
      (w', inl e) ∧
    exn_class e = "BrokenProcessPool".
Proof.
  assert (Hdir : w_fs Sample.world1 !! debate_path = Some Dir) by reflexivity.
  assert (Hin : ("MAD_Debate_Process/a.json", Crashes) ∈
                Sample.all_crash (record_files Sample.world1)).
  { replace (record_files Sample.world1) with ["MAD_Debate_Process/a.json"]
      by (vm_compute; reflexivity).
    apply list_elem_of_here. }
  split; [exact Hdir|]. split; [exact Hin|].
  exact (worker_crash_aborts Sample.json_load Sample.to_csv Sample.dialign
           Sample.world1 Sample.all_crash Hdir
           (ex_intro (λ p, (p, Crashes) ∈ Sample.all_crash (record_files Sample.world1))
                     "MAD_Debate_Process/a.json" Hin)).
Defined.


Lemma series_aligned_witness :
  let s := Ok "a.json" (JFloat (17 # 20)) (JInt 1) (JInt 2) (JInt 3) (JInt 6)
              (JInt 4) (JInt 7) (JInt 5) in
  let f := Err "b.json" "KeyError: 'players'" ([], "KeyError: 'players'") in
  let series := build_series [Failure f; Success s] in
  length (comet_scores series) = 1 ∧ length (ers series) = 1 ∧
  ∃ r, comet_scores series !! 0 = Some (comet r) ∧ ers series !! 0 = Some (er r).
Proof.
  intros s f series.
  destruct (series_aligned [Failure f; Success s]) as ((Hc & He & _) & Hrows).
  split; [exact Hc|]. split; [exact He|].
  destruct (Hrows 0) as (r & _ & Hc0 & He0 & _); [simpl; lia|].
  exists r. split; [exact Hc0|exact He0].
Defined.

(** * Further properties *)

(** ** Paths *)

Lemma ends_with_slash_split (d : string) :
  ends_with_slash d = true → ∃ d', d = d' +:+ "/".
Proof.
  unfold ends_with_slash.
  induction d as [|c d IH]; [done|].
  change (String.list_ascii_of_string (String c d))
    with (c :: String.list_ascii_of_string d).
  destruct d as [|c' d].
  - simpl. intros Hc. apply bool_decide_eq_true in Hc as ->. by exists EmptyString.
  - change (String.list_ascii_of_string (String c' d))
      with (c' :: String.list_ascii_of_string d) in *.
    rewrite last_cons_cons. intros H. destruct (IH H) as [d' ->].
    by exists (String c d').
Qed.

(** X1: joining a directory name and an entry name and taking the base
    name gives the entry name back, whatever the directory name. *)
Theorem basename_of_join (d f : string) :
  f ≠ EmptyString → has_slash f = false →
  os_path_basename (os_path_join d f) = f.
Proof.
  intros Hne Hf. destruct f as [|c f]; [done|].
  assert (Hc : c ≠ "/"%char).
  { intros ->. simpl in Hf. try case_decide; done. }
  assert (Hj : os_path_join d (String c f) =
               if decide (d = EmptyString) then String c f
               else if ends_with_slash d then d +:+ String c f
               else d +:+ "/" +:+ String c f).
  { unfold os_path_join. destruct c as [[] [] [] [] [] [] [] []]; done. }
  rewrite Hj. case_decide as Hd.
  - by apply basename_no_slash.
  - destruct (ends_with_slash d) eqn:He.
    + apply ends_with_slash_split in He as [d' ->].
      replace ((d' +:+ "/") +:+ String c f) with (d' +:+ "/" +:+ String c f).
      * by apply basename_after_slash.
      * clear. induction d' as [|a d' IH]; [done|].
        change (String a d' +:+ "/" +:+ String c f)
          with (String a (d' +:+ "/" +:+ String c f)).
        change ((String a d' +:+ "/") +:+ String c f)
          with (String a ((d' +:+ "/") +:+ String c f)).
        by rewrite IH.
    + by apply basename_after_slash.
Qed.

Lemma basename_of_join_witness :
  "a.json" ≠ EmptyString ∧ has_slash "a.json" = false ∧
  os_path_basename (os_path_join "runs/2024/" "a.json") = "a.json".
Proof.
  assert (Hne : "a.json" ≠ EmptyString) by discriminate.
  split; [exact Hne|]. split; [reflexivity|].
  exact (basename_of_join "runs/2024/" "a.json" Hne eq_refl).
Defined.

(** A base name holds no slash, and taking the base name twice is
    taking it once. *)
Theorem basename_has_no_slash (p : string) :
  has_slash (os_path_basename p) = false ∧
  os_path_basename (os_path_basename p) = os_path_basename p.
Proof.
  assert (H : has_slash (os_path_basename p) = false).
  { induction p as [|c p IH]; [done|]. simpl.
    destruct (has_slash p) eqn:Hp; [done|].
    case_decide; [done|]. simpl. by rewrite decide_False. }
  split; [done|]. by apply basename_no_slash.
Qed.

(** ** The turn table *)

Lemma build_turns_sides (debate : json) :
  build_turns_from_debate debate =
  (seed ← at_line "build_turns_from_debate" 29
            (aff ← side debate "Affirmative side";
             turn ← getindex aff 5;
             getitem turn "content");
   utts ← at_line "build_turns_from_debate" 32
            (neg ← side debate "Negative side"; slice_from neg 2);
   alternate 0 utts [Row "Affirmative side" seed]).
Proof.
  unfold build_turns_from_debate, side, mbind, py_bind.
  by destruct (getitem debate "players") as [e|players].
Qed.

(** X2: the table depends on the Affirmative side through its entry at
    index 5 only, and on the Negative side through its entries from index 2
    on only: two records that agree there give the same table, or fail
    alike. *)
Theorem turns_depend_on_read_entries (d1 d2 : json) (aff1 aff2 neg1 neg2 : list json) :
  side d1 "Affirmative side" = inr (JArr aff1) →
  side d2 "Affirmative side" = inr (JArr aff2) →
  side d1 "Negative side" = inr (JArr neg1) →
  side d2 "Negative side" = inr (JArr neg2) →
  aff1 !! 5 = aff2 !! 5 →
  drop 2 neg1 = drop 2 neg2 →
  build_turns_from_debate d1 = build_turns_from_debate d2.
Proof.
  intros Ha1 Ha2 Hn1 Hn2 Haff Hneg.
  rewrite !build_turns_sides, Ha1, Ha2, Hn1, Hn2.
  unfold mbind, py_bind, getindex, slice_from. by rewrite Haff, Hneg.
Qed.

Lemma turns_depend_on_read_entries_witness :
  let d1 := Sample.debate (Sample.affirmative 6) (Sample.negative 4) in
  let d2 := Sample.debate (JNull :: drop 1 (Sample.affirmative 6))
                          (JInt 0 :: JInt 1 :: drop 2 (Sample.negative 4)) in
  build_turns_from_debate d1 = build_turns_from_debate d2.
Proof.
  intros d1 d2.
  exact (turns_depend_on_read_entries d1 d2
           (Sample.affirmative 6) (JNull :: drop 1 (Sample.affirmative 6))
           (Sample.negative 4) (JInt 0 :: JInt 1 :: drop 2 (Sample.negative 4))
           eq_refl eq_refl eq_refl eq_refl eq_refl eq_refl).
Defined.

Lemma alternate_speakers (utts : list json) (i : nat) (data turns : list row) :
  alternate i utts data = inr turns →
  Speaker <$> turns = (Speaker <$> data) ++ (speaker_at <$> seq i (length utts)).
Proof.
  revert i data. induction utts as [|utt utts IH]; intros i data H; simpl in H.
  - injection H as <-. by rewrite app_nil_r.
  - apply bind_inr in H as (c & _ & H). apply IH in H.
    rewrite H, fmap_app, <- app_assoc. done.
Qed.

Lemma count_speakers (i m : nat) :
  length (filter (λ s, s = "Negative side") (speaker_at <$> seq i m)) =
    (if Nat.even i then (m + 1) / 2 else m / 2) ∧
  length (filter (λ s, s = "Affirmative side") (speaker_at <$> seq i m)) =
    (if Nat.even i then m / 2 else (m + 1) / 2).
Proof.
  revert i. induction m as [|m IH]; intros i.
  - by destruct (Nat.even i).
  - destruct (IH (S i)) as [IHn IHa].
    change (seq i (S m)) with (i :: seq (S i) m).
    rewrite fmap_cons, !filter_cons.
    rewrite Nat.even_succ, <- Nat.negb_even in IHn, IHa.
    replace (S m + 1) with (m + 1 * 2) by lia. rewrite Nat.div_add by done.
    replace (S m) with (m + 1) by lia.
    destruct (Nat.even i) eqn:He; simpl in *.
    + assert (Hs : speaker_at i = "Negative side") by (unfold speaker_at; by rewrite He).
      rewrite decide_True by done. rewrite decide_False by (by rewrite Hs).
      simpl. rewrite IHn, IHa. lia.
    + assert (Hs : speaker_at i = "Affirmative side") by (unfold speaker_at; by rewrite He).
      rewrite decide_False by (by rewrite Hs). rewrite decide_True by done.
      simpl. rewrite IHn, IHa. lia.
Qed.

(** X3: of the rows built from a Negative side of [2 + m] entries, [(m + 1) / 2]
    are labelled "Negative side" and [1 + m / 2] "Affirmative side", the seed
    row among them. *)
Theorem speaker_counts (debate : json) (neg : list json) (turns : list row) :
  side debate "Negative side" = inr (JArr neg) →
  build_turns_from_debate debate = inr turns →
  let m := length (drop 2 neg) in
  length (filter (λ r, Speaker r = "Negative side") turns) = (m + 1) / 2 ∧
  length (filter (λ r, Speaker r = "Affirmative side") turns) = 1 + m / 2.
Proof.
  intros Hneg Hb m.
  apply build_turns_inv in Hb
    as (aff & turn & seed & neg' & utts & _ & _ & _ & Hneg' & Hutts & Halt).
  rewrite Hneg in Hneg'. injection Hneg' as <-.
  simpl in Hutts. injection Hutts as <-.
  apply alternate_speakers in Halt. fold m in Halt. simpl in Halt.
  assert (Hf : ∀ s, length (filter (λ r, Speaker r = s) turns) =
                    length (filter (λ x, x = s) (Speaker <$> turns))).
  { intros s. clear. induction turns as [|r turns IH]; [done|].
    rewrite fmap_cons, !filter_cons. destruct (decide (Speaker r = s)); simpl; by rewrite IH. }
  rewrite !Hf, Halt. destruct (count_speakers 0 m) as [Hn Ha]. simpl in Hn, Ha.
  rewrite !filter_cons. simpl. by rewrite Hn, Ha.
Qed.

Lemma speaker_counts_witness :
  side Sample.debate_ok "Negative side" = inr (JArr (Sample.negative 4)) ∧
  ∃ turns, build_turns_from_debate Sample.debate_ok = inr turns ∧
           length (filter (λ r, Speaker r = "Negative side") turns) = 1 ∧
           length (filter (λ r, Speaker r = "Affirmative side") turns) = 2.
Proof.
  split; [reflexivity|]. eexists. split; [reflexivity|].
  exact (speaker_counts Sample.debate_ok (Sample.negative 4) _ eq_refl eq_refl).
Defined.

Lemma length_chars (s : string) : length (chars s) = String.length s.
Proof.
  unfold chars. rewrite length_fmap.
  induction s as [|c s IH]; [done|]. simpl. by rewrite IH.
Qed.

Lemma chars_are_strings (s : string) (v : json) :
  v ∈ chars s → ∃ c, v = JStr c.
Proof. unfold chars. intros (c & -> & _)%list_elem_of_fmap. by eexists. Qed.

(** X4: a Negative side that is a string instead of a list is sliced
    like a list: with two characters at most nothing is left and the table
    is the seed row alone; with more, the first character left has no
    "content" and the reconstruction raises [TypeError] from line 34. *)
Theorem string_negative_side (debate aff turn seed : json) (s : string) :
  side debate "Affirmative side" = inr aff →
  getindex aff 5 = inr turn →
  getitem turn "content" = inr seed →
  side debate "Negative side" = inr (JStr s) →
  build_turns_from_debate debate =
    if decide (String.length s ≤ 2) then inr [Row "Affirmative side" seed]
    else inl (Exn "TypeError" "string indices must be integers, not 'str'"
                  [("build_turns_from_debate", 34)]).
Proof.
  intros Haff Hturn Hseed Hneg.
  rewrite build_turns_sides, Haff, Hneg. simpl. rewrite Hturn. simpl. rewrite Hseed. simpl.
  pose proof (length_chars s) as Hlen.
  destruct (drop 2 (chars s)) as [|v rest] eqn:Hd.
  - apply (f_equal length) in Hd. rewrite length_drop in Hd. simpl in Hd.
    rewrite decide_True by lia. done.
  - assert (Hv : v ∈ chars s).
    { apply (subseteq_drop 2). rewrite Hd. by left. }
    apply chars_are_strings in Hv as [c ->].
    apply (f_equal length) in Hd. rewrite length_drop in Hd. simpl in Hd.
    rewrite decide_False by lia. done.
Qed.

Lemma string_negative_side_witness :
  let debate :=
    JObj [("players", JObj [("Affirmative side", JArr (Sample.affirmative 6));
                            ("Negative side", JStr "no")])] in
  side debate "Negative side" = inr (JStr "no") ∧
  build_turns_from_debate debate = inr [Row "Affirmative side" (JStr "aff 5")].
Proof.
  intros debate. split; [reflexivity|].
  exact (string_negative_side debate (JArr (Sample.affirmative 6))
           (Sample.turn "assistant" "aff 5") (JStr "aff 5") "no"
           eq_refl eq_refl eq_refl eq_refl).
Defined.

(** ** One task, further *)

Section MoreTask.

Variable json_load : string → py json.
Variable to_csv : list row → py string.
Variable dialign : string → string → string → py dialign_out.

Abbreviation body := (process_body json_load to_csv dialign).
Abbreviation task := (process_one_file json_load to_csv dialign).
Abbreviation load := (load_record json_load).

Lemma load_record_inv (path : string) (w : world) (c : json) (data : list row) :
  load path w = inr (c, data) →
  ∃ content debate,
    w_fs w !! path = Some (File content) ∧
    json_load content = inr debate ∧
    getitem debate "comet score" = inr c ∧
    build_turns_from_debate debate = inr data.
Proof.
  unfold load_record, open_read.
  destruct (w_fs w !! path) as [[content| |]|] eqn:Hp; simpl; try done.
  intros H.
  apply bind_inr in H as (debate & Hd%at_line_inr & H).
  apply bind_inr in H as (c' & Hc%at_line_inr & H).
  apply bind_inr in H as (d & Hb%at_line_inr & [= <- <-]).
  by exists content, debate.
Qed.

Lemma task_unloaded (path : string) (w : world) (e : exn) :
  load path w = inl e →
  task path w = (w, Failure (Err (os_path_basename path) (describe e) (format_exc 3 e))).
Proof.
  intros H. unfold process_one_file. rewrite process_body_stages, H. done.
Qed.

(** X5: a task whose record is missing, unreadable, malformed or
    incomplete fails without touching the world: it creates no temporary
    file and does not call the alignment routine. *)
Theorem unloaded_record_no_effect (w : world) (path : string) :
  (∀ content debate c data,
     w_fs w !! path = Some (File content) →
     json_load content = inr debate →
     getitem debate "comet score" = inr c →
     build_turns_from_debate debate = inr data → False) →
  (task path w).1 = w ∧ ok (task path w).2 = false.
Proof.
  intros Hno.
  destruct (load path w) as [e|[c data]] eqn:Hl.
  - by rewrite (task_unloaded _ _ _ Hl).
  - apply load_record_inv in Hl as (content & debate & Hp & Hd & Hc & Hb).
    destruct (Hno _ _ _ _ Hp Hd Hc Hb).
Qed.

(** X6: a task prints nothing, changes no permission, keeps every
    existing file with its content, creates no file but the temporary one it
    names, and calls the alignment routine once at most, on that file. *)
Theorem task_frame (w : world) (path : string) :
  let w' := (task path w).1 in
  w_out w' = w_out w ∧
  w_locked w' = w_locked w ∧
  w_fs w ⊆ w_fs w' ∧
  dom (w_fs w') ⊆ dom (w_fs w) ∪ {[ tmp_name w ]} ∧
  (w_calls w' = w_calls w ∨
   ∃ csv, w_calls w' = w_calls w ++ [Call (tmp_name w) "Speaker" "Utterance" (Some csv)]).
Proof.
  intros w'. subst w'. split_and!.
  - rewrite task_world_eq, process_body_stages.
    destruct (load path w) as [e|[c data]]; [done|].
    by destruct (to_csv data).
  - apply task_keeps_locked.
  - apply task_keeps_files.
  - rewrite task_world_eq, process_body_stages.
    destruct (load path w) as [e|[c data]]; simpl; [apply union_subseteq_l|].
    destruct (to_csv data) as [e|csv]; simpl.
    + by rewrite dom_insert_L, (comm_L (∪)).
    + case_decide; [|apply union_subseteq_l]. by rewrite dom_insert_L, (comm_L (∪)).
  - rewrite task_world_eq, process_body_stages.
    destruct (load path w) as [e|[c data]]; simpl; [by left|].
    destruct (to_csv data) as [e|csv]; simpl; [by left|].
    right. by exists csv.
Qed.

(** X7: running a task again on the world it left gives the same
    result. *)
Theorem task_repeatable (w : world) (path : string) :
  (task path (task path w).1).2 = (task path w).2.
Proof.
  apply task_depends_on_record.
  destruct (w_fs w !! path) as [n|] eqn:Hp.
  - rewrite (lookup_weaken _ _ _ _ Hp (task_keeps_files _ _ _ path w)). done.
  - assert (∃ e, load path w = inl e) as [e He].
    { unfold load_record, open_read. rewrite Hp. by eexists. }
    by rewrite (task_unloaded _ _ _ He).
Qed.

(** X8: the score is looked up before the turns are built: a decoded
    object without "comet score" gives the failure [KeyError: 'comet score'],
    whatever its "players" hold, and leaves the world as it was. *)
Theorem comet_score_checked_first (w : world) (path content : string)
    (kvs : list (string * json)) :
  w_fs w !! path = Some (File content) →
  json_load content = inr (JObj kvs) →
  assoc "comet score" kvs = None →
  task path w =
    (w, Failure (Err (os_path_basename path) "KeyError: 'comet score'"
                     ([("process_one_file", 46)], "KeyError: 'comet score'"))).
Proof.
  intros Hp Hd Hk.
  assert (Hl : load path w = inl (Exn "KeyError" "'comet score'" [("process_one_file", 46)])).
  { unfold load_record, open_read. rewrite Hp. simpl. rewrite Hd. simpl. by rewrite Hk. }
  by rewrite (task_unloaded _ _ _ Hl).
Qed.








End MoreTask.

(** ** The batch, further *)

Section MoreBatch.

Variable json_load : string → py json.
Variable to_csv : list row → py string.
Variable dialign : string → string → string → py dialign_out.

Abbreviation body := (process_body json_load to_csv dialign).
Abbreviation task := (process_one_file json_load to_csv dialign).
Abbreviation collected := (collect json_load to_csv dialign).
Abbreviation batch := (main json_load to_csv dialign).
Abbreviation reaches := (reaches_alignment json_load to_csv).

Lemma task_keeps_out (path : string) (w : world) : w_out (task path w).1 = w_out w.
Proof.
  rewrite task_world_eq, process_body_stages.
  destruct (load_record json_load path w) as [e|[c data]]; [done|].
  by destruct (to_csv data).
Qed.

Lemma task_calls (path : string) (w : world) :
  length (w_calls (task path w).1) =
  length (w_calls w) + (if reaches path w then 1 else 0).
Proof.
  rewrite task_world_eq, process_body_stages. unfold reaches_alignment.
  destruct (load_record json_load path w) as [e|[c data]]; simpl; [lia|].
  destruct (to_csv data) as [e|csv]; simpl; [lia|].
  rewrite length_app. simpl. lia.
Qed.

Lemma reaches_depends_on_record (path : string) (w1 w2 : world) :
  w_fs w1 !! path = w_fs w2 !! path → reaches path w1 = reaches path w2.
Proof.
  intros H. unfold reaches_alignment.
  by rewrite (load_depends_on_record json_load path w1 w2 H).
Qed.

Lemma success_reaches (path : string) (w : world) :
  ok (task path w).2 = true → reaches path w = true.
Proof.
  rewrite task_result_eq, process_body_stages. unfold reaches_alignment.
  destruct (load_record json_load path w) as [e|[c data]]; [done|].
  by destruct (to_csv data).
Qed.

(** One turn of the loop: the task runs, its status line is printed, its
    result is appended. *)
Lemma collect_step (p : string) rest acc (w : world) :
  ∃ w1, collected ((p, Returns) :: rest) acc w =
          collected rest (acc ++ [(task p w).2]) w1 ∧
        w_fs w1 = w_fs (task p w).1 ∧
        w_locked w1 = w_locked (task p w).1 ∧
        w_calls w1 = w_calls (task p w).1 ∧
        w_out w1 = w_out w ++ [status_line (task p w).2].
Proof.
  pose proof (task_keeps_out p w) as Hout.
  pose proof (task_names_file json_load to_csv dialign p w) as Hfile.
  simpl. unfold mbind, M_bind.
  destruct (task p w) as [w1 r]. simpl in *.
  destruct r as [s|f]; simpl in *; eexists; (split; [reflexivity|]);
    simpl; rewrite Hout; done.
Qed.

Lemma collect_out futures acc (w w' : world) results :
  collected futures acc w = (w', inr results) →
  ∃ new, results = acc ++ new ∧ w_out w' = w_out w ++ (status_line <$> new).
Proof.
  revert acc w. induction futures as [|[p f] rest IH]; intros acc w H.
  - injection H as <- <-. exists []. by rewrite !app_nil_r.
  - destruct f; [|done].
    destruct (collect_step p rest acc w) as (w1 & Hc & _ & _ & _ & Hout).
    rewrite Hc in H. apply IH in H as (new & -> & Hout').
    exists ((task p w).2 :: new). split; [by rewrite <- app_assoc|].
    rewrite Hout', Hout, <- app_assoc. done.
Qed.

(** X13: when [main] returns, what it has printed is the status line of
    each result, in the order of the results. *)
Theorem main_status_lines (w w' : world) (as_completed : list string → list (string * fate))
    (results : list task_result) (s : series) :
  batch as_completed w = (w', inr (results, s)) →
  w_out w' = w_out w ++ (status_line <$> results).
Proof.
  unfold main, mbind, M_bind, gather_files, os_listdir.
  destruct (w_fs w !! debate_path) as [[| |]|]; try done.
  destruct (collected _ [] w) as [w1 [e|rs]] eqn:Hc; [done|].
  intros [= <- <- <-].
  by apply collect_out in Hc as (new & -> & ->).
Qed.

(** X14: without the directory [main] raises at once: [os.listdir] fails
    with [FileNotFoundError], or with [NotADirectoryError] when the name is
    that of a file; no task is run and the world is as it was. *)
Theorem main_without_directory (w : world) (as_completed : list string → list (string * fate)) :
  w_fs w !! debate_path ≠ Some Dir →
  ∃ e, batch as_completed w = (w, inl e) ∧
       exn_class e = match w_fs w !! debate_path with
                     | None => "FileNotFoundError"
                     | _ => "NotADirectoryError"
                     end.
Proof.
  intros Hd. unfold main, mbind, M_bind, gather_files, os_listdir.
  destruct (w_fs w !! debate_path) as [[| |]|]; try done; by eexists.
Qed.

(** X15: on a directory without regular files [main] returns no result
    and eight empty series, and prints nothing. *)
Theorem main_empty_directory (w : world) (as_completed : list string → list (string * fate)) :
  w_fs w !! debate_path = Some Dir →
  record_files w = [] →
  as_completed [] = [] →
  batch as_completed w = (w, inr ([], Series [] [] [] [] [] [] [] [])).
Proof.
  intros Hd Hf Hc. unfold main, mbind, M_bind.
  rewrite (gather_files_eq _ Hd), Hf, Hc. done.
Qed.


Lemma basename_child (f : string) :
  f ≠ EmptyString → has_slash f = false →
  os_path_basename (debate_path +:+ "/" +:+ f) = f.
Proof. intros _ Hf. by apply basename_after_slash. Qed.

(** X17: when every worker returns, the results name pairwise distinct
    files, each one an entry of the directory. *)
Theorem result_files_distinct (w : world) (as_completed : list string → list (string * fate)) :
  w_fs w !! debate_path = Some Dir →
  (as_completed (record_files w)).*1 ≡ₚ record_files w →
  (∀ x, x ∈ as_completed (record_files w) → x.2 = Returns) →
  ∃ w' results s,
    batch as_completed w = (w', inr (results, s)) ∧
    NoDup (file <$> results) ∧
    ∀ r, r ∈ results → debate_path +:+ "/" +:+ file r ∈ record_files w.
Proof.
  intros Hdir Hperm Hret.
  destruct (main_all_return json_load to_csv dialign w as_completed Hdir Hperm Hret)
    as (w' & results & Hmain & Hres & _).
  exists w', results, (build_series results). split; [done|].
  assert (Hfiles : file <$> results = os_path_basename <$> (as_completed (record_files w)).*1).
  { rewrite Hres, <- list_fmap_compose. apply list_fmap_ext.
    intros i p _. apply task_names_file. }
  assert (Hback : ∀ q, q ∈ record_files w → debate_path +:+ "/" +:+ os_path_basename q = q).
  { intros q (f & -> & Hne & Hs & _)%record_files_spec. by rewrite basename_child. }
  split.
  - rewrite Hfiles, Hperm. apply NoDup_fmap_2_strong; [|apply record_files_NoDup].
    intros q1 q2 H1 H2 Heq. rewrite <- (Hback q1 H1), <- (Hback q2 H2). by rewrite Heq.
  - intros r Hr. apply (list_elem_of_fmap_2 file) in Hr. rewrite Hfiles in Hr.
    apply list_elem_of_fmap in Hr as (q & -> & Hq). rewrite Hperm in Hq.
    by rewrite (Hback q Hq).
Qed.

Lemma collect_calls futures acc (w0 w : world) :
  w_fs w0 ⊆ w_fs w →
  (∀ x, x ∈ futures → x.2 = Returns ∧ is_Some (w_fs w0 !! x.1)) →
  length (w_calls (collected futures acc w).1) =
  length (w_calls w) + length (filter (λ p, reaches p w0 = true) futures.*1).
Proof.
  revert acc w. induction futures as [|[p f] rest IH]; intros acc w Hsub Hall.
  - simpl. lia.
  - destruct (Hall (p, f)) as [Hf [n Hn]]; [left|]. simpl in Hf, Hn. subst f.
    destruct (collect_step p rest acc w) as (w1 & -> & Hfs & _ & Hcalls & _).
    rewrite IH.
    + rewrite Hcalls, task_calls, fmap_cons, filter_cons. simpl.
      rewrite (reaches_depends_on_record p w w0)
        by (rewrite Hn; by apply (lookup_weaken _ _ _ _ Hn)).
      destruct (reaches p w0); simpl; lia.
    + rewrite Hfs. etrans; [done|]. apply task_keeps_files.
    + intros x Hx. apply Hall. by right.
Qed.

Lemma successes_reach (w : world) (files : list string) :
  length (filter (λ r, ok r = true) ((λ p, (task p w).2) <$> files)) ≤
  length (filter (λ p, reaches p w = true) files).
Proof.
  induction files as [|p files IH]; [done|].
  rewrite fmap_cons, !filter_cons.
  pose proof (success_reaches p w) as Hs.
  destruct (ok (task p w).2); simpl.
  - rewrite Hs by done. simpl. lia.
  - destruct (reaches p w); simpl; lia.
Qed.

(** X18: when every worker returns, a run calls the alignment routine
    once for each file whose record loads and whose table is written, and
    for no other; the successes are among those files. *)
Theorem dialign_call_count (w : world) (as_completed : list string → list (string * fate)) :
  w_fs w !! debate_path = Some Dir →
  (as_completed (record_files w)).*1 ≡ₚ record_files w →
  (∀ x, x ∈ as_completed (record_files w) → x.2 = Returns) →
  let aligned := filter (λ p, reaches p w = true) (record_files w) in
  ∃ w' results s,
    batch as_completed w = (w', inr (results, s)) ∧
    length (w_calls w') = length (w_calls w) + length aligned ∧
    length (filter (λ r, ok r = true) results) ≤ length aligned.
Proof.
  intros Hdir Hperm Hret aligned.
  destruct (main_all_return json_load to_csv dialign w as_completed Hdir Hperm Hret)
    as (w' & results & Hmain & Hres & _).
  exists w', results, (build_series results). split; [done|].
  assert (Hall : ∀ x, x ∈ as_completed (record_files w) →
                      x.2 = Returns ∧ is_Some (w_fs w !! x.1)).
  { intros x Hx. split; [by apply Hret|].
    apply record_files_exist. rewrite <- Hperm.
    apply list_elem_of_fmap. by exists x. }
  split.
  - pose proof (collect_calls (as_completed (record_files w)) [] w w
                  (reflexivity _) Hall) as Hc.
    unfold main, mbind, M_bind in Hmain.
    rewrite (gather_files_eq _ Hdir) in Hmain.
    destruct (collected _ [] w) as [w1 [e|rs]]; [done|].
    injection Hmain as <- _. simpl in Hc. rewrite Hc. subst aligned.
    by rewrite Hperm.
  - rewrite Hres. etrans; [apply successes_reach|]. subst aligned.
    by rewrite Hperm.
Qed.

End MoreBatch.

(** ** The series, further *)

Lemma zip_fmap_same {A B C} (f : A → B) (g : A → C) (l : list A) :
  zip (f <$> l) (g <$> l) = (λ x, (f x, g x)) <$> l.
Proof. induction l as [|x l IH]; [done|]. by rewrite !fmap_cons, <- IH. Qed.

(** X19: the order of the results does not matter to the plots: for two
    lists of the same results in different orders, the points of each plot,
    metric paired with score, are the same up to order. *)
Theorem series_order_independent (results results' : list task_result) :
  results ≡ₚ results' →
  let s := build_series results in
  let s' := build_series results' in
  zip (ers s) (comet_scores s) ≡ₚ zip (ers s') (comet_scores s') ∧
  zip (ees s) (comet_scores s) ≡ₚ zip (ees s') (comet_scores s') ∧
  zip (affirmative_repetitions s) (comet_scores s) ≡ₚ
    zip (affirmative_repetitions s') (comet_scores s') ∧
  zip (negative_repetitions s) (comet_scores s) ≡ₚ
    zip (negative_repetitions s') (comet_scores s') ∧
  zip (affirmative_establishments s) (comet_scores s) ≡ₚ
    zip (affirmative_establishments s') (comet_scores s') ∧
  zip (negative_establishments s) (comet_scores s) ≡ₚ
    zip (negative_establishments s') (comet_scores s') ∧
  zip (affirmative_initiated s) (comet_scores s) ≡ₚ
    zip (affirmative_initiated s') (comet_scores s').
Proof.
  intros Hp s s'. subst s s'. unfold build_series. simpl.
  assert (Ho : oks results ≡ₚ oks results') by (unfold oks; by rewrite Hp).
  rewrite !zip_fmap_same. by rewrite Ho.
Qed.

Lemma series_order_independent_witness :
  let s1 := Ok "a.json" (JInt 10) (JInt 1) (JInt 2) (JInt 3) (JInt 4) (JInt 5) (JInt 6) (JInt 7) in
  let s2 := Ok "b.json" (JInt 20) (JInt 8) (JInt 9) (JInt 3) (JInt 4) (JInt 5) (JInt 6) (JInt 7) in
  [Success s1; Success s2] ≡ₚ [Success s2; Success s1] ∧
  [(JInt 1, JInt 10); (JInt 8, JInt 20)] ≡ₚ [(JInt 8, JInt 20); (JInt 1, JInt 10)].
Proof.
  intros s1 s2.
  assert (Hp : [Success s1; Success s2] ≡ₚ [Success s2; Success s1]) by apply perm_swap.
  split; [exact Hp|].
  exact (proj1 (series_order_independent _ _ Hp)).
Defined.

Lemma oks_nil (results : list task_result) :
  oks results = [] ↔ ∀ r, r ∈ results → ok r = false.
Proof.
  induction results as [|[s|f] results IH].
  - split; [|done]. intros _ r Hr. by apply elem_of_nil in Hr.
  - split; [done|]. intros H. specialize (H (Success s)). simpl in H.
    discriminate H. by left.
  - change (oks (Failure f :: results)) with (oks results). rewrite IH. split.
    + intros H r [->|Hr]%elem_of_cons; [done|by apply H].
    + intros H r Hr. apply H. by right.
Qed.

(** X20: the series are all empty exactly when no result is a success. *)
Theorem series_empty_iff_no_success (results : list task_result) :
  build_series results = Series [] [] [] [] [] [] [] [] ↔
  ∀ r, r ∈ results → ok r = false.
Proof.
  rewrite <- oks_nil. unfold build_series. split.
  - intros [= H _]. by apply fmap_nil_inv in H.
  - by intros ->.
Qed.

(** ** The plots and the histogram script *)

Section MorePlots.

Variable scatter : list json → list json → py unit.
Variable render : figure → py string.
Variable pearsonr : list json → list json → py string.
Variable json_load : string → py json.
Variable to_csv : list row → py string.
Variable dialign : string → string → string → py dialign_out.

Abbreviation plot := (plot_correlation scatter render pearsonr).
Abbreviation batch := (main json_load to_csv dialign).
Abbreviation script := (main_with_plots scatter render pearsonr json_load to_csv dialign).

Lemma plot_correlation_done (w : world) (x y : list json)
    (xlabel ylabel title filename png r : string) :
  scatter x y = inr () →
  render (Scatter x y xlabel ylabel title) = inr png →
  pearsonr x y = inr r →
  plot x y xlabel ylabel title filename w = (plotted w filename png title r, inr ()).
Proof.
  intros Hs Hr Hp. unfold plot_correlation, mbind, M_bind, at_lineM, lift, savefig, print.
  rewrite Hs, Hr, Hp. simpl. unfold plotted. simpl. by rewrite <- app_assoc.
Qed.

Lemma plot_correlation_undone (w : world) (x y : list json)
    (xlabel ylabel title filename png : string) (e : exn) :
  scatter x y = inr () →
  render (Scatter x y xlabel ylabel title) = inr png →
  pearsonr x y = inl e →
  plot x y xlabel ylabel title filename w =
    (World (<[filename := File png]> (w_fs w)) (w_locked w) (w_calls w) (w_out w ++ [title]),
     inl (Exn (exn_class e) (exn_msg e) (("plot_correlation", 21) :: exn_tb e))).
Proof.
  intros Hs Hr Hp. unfold plot_correlation, mbind, M_bind, at_lineM, lift, savefig, print.
  by rewrite Hs, Hr, Hp.
Qed.

Lemma main_series (w w1 : world) (as_completed : list string → list (string * fate))
    (results : list task_result) (s : series) :
  batch as_completed w = (w1, inr (results, s)) → s = build_series results.
Proof.
  unfold main, mbind, M_bind.
  destruct (gather_files w) as [w0 [e|files]]; [done|].
  destruct (collect _ _ _ _ _ w0) as [w2 [e|rs]]; [done|].
  by intros [= _ <- <-].
Qed.

Lemma series_lengths (results : list task_result) :
  let s := build_series results in
  Forall (λ spec, length spec.1.1.1 = length (comet_scores s)) (plot_specs s).
Proof.
  simpl. unfold plot_specs, build_series. simpl.
  repeat (apply Forall_cons; split; [simpl; by rewrite !length_fmap|]).
  apply Forall_nil_2.
Qed.

(** X21: after a batch that returned, if the plotting and correlation
    routines accept series of equal length, [main] draws its seven plots in
    order: each image is saved under its own name, and each title is printed
    followed by the correlation of that series with the scores. *)
Theorem script_draws_seven_plots (w w1 : world)
    (as_completed : list string → list (string * fate))
    (results : list task_result) (s : series)
    (img : figure → string) (rho : list json → list json → string) :
  batch as_completed w = (w1, inr (results, s)) →
  (∀ x y, length x = length y → scatter x y = inr ()) →
  (∀ fig, render fig = inr (img fig)) →
  (∀ x y, length x = length y → pearsonr x y = inr (rho x y)) →
  ∃ w2,
    script as_completed w = (w2, inr ()) ∧
    w_out w2 =
      w_out w1 ++ concat ((λ '(x, _, title, _), [title; rho x (comet_scores s)])
                            <$> plot_specs s) ∧
    w_fs w2 =
      foldl (λ fs '(x, xlabel, title, filename),
               <[filename := File (img (Scatter x (comet_scores s) xlabel
                                                "COMET Score" title))]> fs)
            (w_fs w1) (plot_specs s) ∧
    w_calls w2 = w_calls w1 ∧ w_locked w2 = w_locked w1.
Proof.
  intros Hmain Hs Hr Hp.
  pose proof (main_series _ _ _ _ _ Hmain) as ->.
  pose proof (series_lengths results) as Hlen. simpl in Hlen.
  unfold plot_specs in Hlen.
  repeat (apply Forall_cons in Hlen as [? Hlen]). simpl in *.
  unfold main_with_plots, mbind at 1, M_bind at 1. rewrite Hmain.
  unfold plots, mbind, M_bind, at_lineM.
  repeat (erewrite plot_correlation_done; [|by apply Hs|by apply Hr|by apply Hp]; simpl).
  eexists. split; [reflexivity|]. simpl.
  rewrite <- !app_assoc. by split_and!.
Qed.

(** X22: after a batch that returned, if the correlation of the first
    series fails, as it does for too few points, [main] raises it from line
    120: the first image is already saved and its title printed, and none of
    the six other plots is drawn. *)
Theorem script_stops_at_first_plot (w w1 : world)
    (as_completed : list string → list (string * fate))
    (results : list task_result) (s : series) (png : string) (e : exn) :
  batch as_completed w = (w1, inr (results, s)) →
  scatter (ers s) (comet_scores s) = inr () →
  render (Scatter (ers s) (comet_scores s) "ER" "COMET Score"
                  "Correlation between ER and COMET Score") = inr png →
  pearsonr (ers s) (comet_scores s) = inl e →
  ∃ w2,
    script as_completed w =
      (w2, inl (Exn (exn_class e) (exn_msg e)
                    (("main", 120) :: ("plot_correlation", 21) :: exn_tb e))) ∧
    w_fs w2 = <["er_comet_correlation.png" := File png]> (w_fs w1) ∧
    w_out w2 = w_out w1 ++ ["Correlation between ER and COMET Score"].
Proof.
  intros Hmain Hs Hr Hp.
  unfold main_with_plots, mbind at 1, M_bind at 1. rewrite Hmain.
  unfold plots, mbind, M_bind, at_lineM.
  erewrite plot_correlation_undone; [|exact Hs|exact Hr|exact Hp]. simpl.
  by eexists.
Qed.

End MorePlots.

Section Histogram.

Variable hist : list json → nat → string → py unit.
Variable render : figure → py string.
Variable json_load : string → py json.

Abbreviation histogram := (plot_comet hist render json_load).
Abbreviation read := (read_comet json_load).
Abbreviation read_at := (read_comet_at json_load).
Abbreviation loop := (comet_loop json_load).

Lemma read_depends_on_fs (path : string) (w1 w2 : world) :
  w_fs w1 = w_fs w2 → read path w1 = read path w2 ∧ read_at path w1 = read_at path w2.
Proof.
  intros H. unfold read_comet, read_comet_at, open_read. rewrite H.
  destruct (w_fs w2 !! path) as [[| |]|]; split; reflexivity.
Qed.

Lemma read_at_inr (path : string) (w : world) (sc : json) :
  read_at path w = inr sc ↔ read path w = inr sc.
Proof.
  unfold read_comet_at, read_comet, mbind, py_bind.
  destruct (open_read path w).2 as [e|content]; simpl; [done|].
  destruct (json_load content) as [e|debate]; simpl; [done|].
  by destruct (getitem debate "comet score").
Qed.

Lemma read_at_inl (path : string) (w : world) (e : exn) :
  read path w = inl e →
  ∃ line, read_at path w = inl (Exn (exn_class e) (exn_msg e) ((top, line) :: exn_tb e)) ∧
          line ∈ [10; 11; 12].
Proof.
  unfold read_comet_at, read_comet, mbind, py_bind.
  destruct (open_read path w).2 as [e'|content]; simpl.
  { intros [= ->]. exists 10. split; [done|]. rewrite !elem_of_cons. tauto. }
  destruct (json_load content) as [e'|debate]; simpl.
  { intros [= ->]. exists 11. split; [done|]. rewrite !elem_of_cons. tauto. }
  destruct (getitem debate "comet score") as [e'|sc]; simpl; [|done].
  intros [= ->]. exists 12. split; [done|]. rewrite !elem_of_cons. tauto.
Qed.

(** One turn of the loop of the script. *)
Lemma comet_loop_step (file : string) (rest : list string) (acc : list json) (w : world) :
  loop (file :: rest) acc w =
  match read_at (os_path_join debate_path file) w with
  | inl e => (printed w [processing file], inl e)
  | inr sc => loop rest (acc ++ [sc]) (printed w [processing file])
  end.
Proof.
  simpl. unfold read_comet_at, printed, processing.
  unfold mbind, M_bind, py_bind, print, at_lineM, lift, open_read. simpl.
  destruct (w_fs w !! os_path_join debate_path file) as [[content| |]|]; simpl; try done.
  destruct (json_load content) as [e|debate]; simpl; [done|].
  by destruct (getitem debate "comet score").
Qed.

Lemma printed_printed (w : world) (l1 l2 : list string) :
  printed (printed w l1) l2 = printed w (l1 ++ l2).
Proof. unfold printed. simpl. by rewrite <- app_assoc. Qed.

(** The loop goes through the entries that can be read. *)
Lemma comet_loop_reads (files : list string) (acc : list json) (w0 w : world) :
  w_fs w = w_fs w0 →
  (∀ name, name ∈ files → raises (read (os_path_join debate_path name) w0) = false) →
  ∃ scores,
    loop files acc w = (printed w (processing <$> files), inr (acc ++ scores)) ∧
    Forall2 (λ name sc, read (os_path_join debate_path name) w0 = inr sc) files scores.
Proof.
  revert acc w. induction files as [|file rest IH]; intros acc w Hfs Hall.
  - exists []. simpl. unfold printed. rewrite !app_nil_r. by destruct w.
  - rewrite comet_loop_step.
    destruct (read (os_path_join debate_path file) w0) as [e|sc] eqn:Hr.
    { specialize (Hall file). rewrite Hr in Hall. discriminate Hall. by left. }
    destruct (read_depends_on_fs (os_path_join debate_path file) w w0 Hfs) as [_ ->].
    rewrite (proj2 (read_at_inr _ _ _) Hr).
    destruct (IH (acc ++ [sc]) (printed w [processing file])) as (scores & Hl & Hf).
    + done.
    + intros name Hn. apply Hall. by right.
    + exists (sc :: scores). rewrite Hl, printed_printed, <- app_assoc.
      split; [done|]. by constructor.
Qed.

(** The loop stops at the first entry that cannot be read. *)
Lemma comet_loop_stops (good rest : list string) (bad : string) (acc : list json)
    (w0 w : world) (e : exn) :
  w_fs w = w_fs w0 →
  (∀ name, name ∈ good → raises (read (os_path_join debate_path name) w0) = false) →
  read (os_path_join debate_path bad) w0 = inl e →
  ∃ line,
    loop (good ++ bad :: rest) acc w =
      (printed w (processing <$> (good ++ [bad])),
       inl (Exn (exn_class e) (exn_msg e) ((top, line) :: exn_tb e))) ∧
    line ∈ [10; 11; 12].
Proof.
  revert acc w. induction good as [|file good IH]; intros acc w Hfs Hall Hbad.
  - destruct (read_at_inl _ _ _ Hbad) as (line & Hat & Hline).
    exists line. split; [|done]. simpl app. rewrite comet_loop_step.
    destruct (read_depends_on_fs (os_path_join debate_path bad) w w0 Hfs) as [_ ->].
    by rewrite Hat.
  - change ((file :: good) ++ bad :: rest) with (file :: (good ++ bad :: rest)).
    rewrite comet_loop_step.
    destruct (read (os_path_join debate_path file) w0) as [e'|sc] eqn:Hr.
    { specialize (Hall file). rewrite Hr in Hall. discriminate Hall. by left. }
    destruct (read_depends_on_fs (os_path_join debate_path file) w w0 Hfs) as [_ ->].
    rewrite (proj2 (read_at_inr _ _ _) Hr).
    destruct (IH (acc ++ [sc]) (printed w [processing file])) as (line & Hl & Hline).
    + done.
    + intros name Hn. apply Hall. by right.
    + done.
    + exists line. rewrite Hl, printed_printed. done.
Qed.

Lemma histogram_listing (w : world) :
  w_fs w !! debate_path = Some Dir →
  histogram w =
  match loop (entry_names w) [] w with
  | (w1, inl e) => (w1, inl e)
  | (w1, inr data) =>
      match at_line top 13 (hist data 20 "black") with
      | inl e => (w1, inl e)
      | inr _ =>
          match at_line top 14 (render (Hist data 20 "black")) with
          | inl e => (w1, inl e)
          | inr png =>
              (set_fs <["comet_score_distribution.png" := File png]> w1, inr data)
          end
      end
  end.
Proof.
  intros Hd. unfold plot_comet, mbind, M_bind, at_lineM, os_listdir, lift, savefig.
  rewrite Hd. simpl. fold (entry_names w).
  destruct (loop (entry_names w) [] w) as [w1 [e|data]]; [done|].
  destruct (hist data 20 "black") as [e|[]]; simpl; [done|].
  by destruct (render (Hist data 20 "black")).
Qed.

(** X23: when every entry of the directory is a readable record with a
    score, and the histogram can be drawn, the script prints one line per
    entry, collects the scores in the order of the listing and saves the
    histogram of them. *)
Theorem histogram_reads_every_entry (w : world) (img : list json → string) :
  w_fs w !! debate_path = Some Dir →
  (∀ name, name ∈ entry_names w →
           raises (read (os_path_join debate_path name) w) = false) →
  (∀ data, hist data 20 "black" = inr ()) →
  (∀ data, render (Hist data 20 "black") = inr (img data)) →
  ∃ w' data,
    histogram w = (w', inr data) ∧
    Forall2 (λ name sc, read (os_path_join debate_path name) w = inr sc)
            (entry_names w) data ∧
    w_out w' = w_out w ++ (processing <$> entry_names w) ∧
    w_fs w' = <["comet_score_distribution.png" := File (img data)]> (w_fs w).
Proof.
  intros Hd Hall Hh Hr. rewrite (histogram_listing _ Hd).
  destruct (comet_loop_reads (entry_names w) [] w w eq_refl Hall) as (scores & -> & Hf).
  simpl. rewrite Hh, Hr. simpl. eexists _, scores. by split_and!.
Qed.

Lemma histogram_stops (w : world) (good rest : list string) (bad : string) (e : exn) :
  w_fs w !! debate_path = Some Dir →
  entry_names w = good ++ bad :: rest →
  (∀ name, name ∈ good → raises (read (os_path_join debate_path name) w) = false) →
  read (os_path_join debate_path bad) w = inl e →
  ∃ w' line,
    histogram w = (w', inl (Exn (exn_class e) (exn_msg e) ((top, line) :: exn_tb e))) ∧
    line ∈ [10; 11; 12] ∧
    w_fs w' = w_fs w ∧
    w_out w' = w_out w ++ (processing <$> (good ++ [bad])).
Proof.
  intros Hd Hn Hall Hbad. rewrite (histogram_listing _ Hd), Hn.
  destruct (comet_loop_stops good rest bad [] w w e eq_refl Hall Hbad) as (line & -> & Hl).
  eexists _, line. by split_and!.
Qed.

(** X24: the script stops at the first entry that cannot be read: it
    raises the exception of that entry from the line that read it, having
    printed the lines of the entries up to that one, and saves no
    histogram. *)
Theorem histogram_stops_at_first_failure (w : world) (good rest : list string)
    (bad : string) (e : exn) :
  w_fs w !! debate_path = Some Dir →
  entry_names w = good ++ bad :: rest →
  (∀ name, name ∈ good → raises (read (os_path_join debate_path name) w) = false) →
  read (os_path_join debate_path bad) w = inl e →
  ∃ w' line,
    histogram w = (w', inl (Exn (exn_class e) (exn_msg e) ((top, line) :: exn_tb e))) ∧
    line ∈ [10; 11; 12] ∧
    w_fs w' = w_fs w ∧
    w_out w' = w_out w ++ (processing <$> (good ++ [bad])).
Proof.
  intros Hd Hn Hall Hbad. rewrite (histogram_listing _ Hd), Hn.
  destruct (comet_loop_stops good rest bad [] w w e eq_refl Hall Hbad)
    as (line & Hloop & Hl).
  rewrite Hloop. eexists _, line. by split_and!.
Qed.

Lemma first_unreadable (files : list string) (w : world) (name : string) :
  name ∈ files →
  raises (read (os_path_join debate_path name) w) = true →
  ∃ good bad rest e,
    files = good ++ bad :: rest ∧
    (∀ n, n ∈ good → raises (read (os_path_join debate_path n) w) = false) ∧
    read (os_path_join debate_path bad) w = inl e.
Proof.
  induction files as [|file files IH]; intros Hin Hr.
  - by apply elem_of_nil in Hin.
  - destruct (read (os_path_join debate_path file) w) as [e|sc] eqn:Hf.
    + exists [], file, files, e. split_and!; [done| |done].
      intros n Hn. by apply elem_of_nil in Hn.
    + apply elem_of_cons in Hin as [->|Hin]; [by rewrite Hf in Hr|].
      destruct (IH Hin Hr) as (good & bad & rest & e & -> & Hg & Hb).
      exists (file :: good), bad, rest, e. split_and!; [done| |done].
      intros n [->|Hn]%elem_of_cons; [by rewrite Hf|by apply Hg].
Qed.

(** X25: the script does not keep to regular files: if the directory has
    a subdirectory the script raises and saves no histogram, whereas [main]
    leaves the subdirectory out of the files it processes. *)
Theorem histogram_fails_on_subdirectory (w : world) (name : string) :
  w_fs w !! debate_path = Some Dir →
  name ∈ entry_names w →
  w_fs w !! os_path_join debate_path name = Some Dir →
  raises (histogram w).2 = true ∧
  w_fs (histogram w).1 = w_fs w ∧
  os_path_join debate_path name ∉ record_files w.
Proof.
  intros Hd Hin Hsub. split_and!.
  - assert (Hr : raises (read (os_path_join debate_path name) w) = true).
    { unfold read_comet, open_read. by rewrite Hsub. }
    destruct (first_unreadable _ _ _ Hin Hr) as (good & bad & rest & e & Hn & Hg & Hb).
    destruct (histogram_stops w good rest bad e Hd Hn Hg Hb) as (w' & line & -> & _).
    done.
  - destruct (raises (read (os_path_join debate_path name) w)) eqn:Hr.
    + destruct (first_unreadable _ _ _ Hin Hr) as (good & bad & rest & e & Hn & Hg & Hb).
      by destruct (histogram_stops w good rest bad e Hd Hn Hg Hb) as (w' & line & -> & _ & ? & _).
    + unfold read_comet, open_read in Hr. by rewrite Hsub in Hr.
  - unfold record_files. rewrite list_elem_of_filter. intros [Hf _].
    unfold os_path_isfile in Hf. by rewrite Hsub in Hf.
Qed.

Lemma comet_loop_returns (files : list string) (acc data : list json) (w0 w w' : world) :
  w_fs w = w_fs w0 →
  loop files acc w = (w', inr data) →
  ∃ scores,
    data = acc ++ scores ∧
    Forall2 (λ name sc, read (os_path_join debate_path name) w0 = inr sc) files scores.
Proof.
  revert acc w. induction files as [|file rest IH]; intros acc w Hfs H.
  - injection H as _ <-. exists []. by rewrite app_nil_r.
  - rewrite comet_loop_step in H.
    destruct (read_depends_on_fs (os_path_join debate_path file) w w0 Hfs) as [_ Hat].
    rewrite Hat in H.
    destruct (read_at (os_path_join debate_path file) w0) as [e|sc] eqn:Hr; [done|].
    apply read_at_inr in Hr.
    apply IH in H as (scores & -> & Hf); [|done].
    exists (sc :: scores). rewrite <- app_assoc. split; [done|]. by constructor.
Qed.

Lemma histogram_returns (w w' : world) (data : list json) :
  histogram w = (w', inr data) →
  w_fs w !! debate_path = Some Dir ∧
  Forall2 (λ name sc, read (os_path_join debate_path name) w = inr sc)
          (entry_names w) data.
Proof.
  intros H.
  assert (Hd : w_fs w !! debate_path = Some Dir).
  { unfold plot_comet, mbind, M_bind, at_lineM, os_listdir in H.
    by destruct (w_fs w !! debate_path) as [[| |]|]. }
  split; [done|]. rewrite (histogram_listing _ Hd) in H.
  destruct (loop (entry_names w) [] w) as [w1 [e|scores]] eqn:Hl; [done|].
  apply (comet_loop_returns _ _ _ w) in Hl as (scores' & -> & Hf); [|done].
  destruct (at_line top 13 _) as [e|[]]; [done|].
  destruct (at_line top 14 _) as [e|png]; [done|].
  by injection H as _ <-.
Qed.

End Histogram.

Section BothScripts.

Variable hist : list json → nat → string → py unit.
Variable render : figure → py string.
Variable json_load : string → py json.
Variable to_csv : list row → py string.
Variable dialign : string → string → string → py dialign_out.

Abbreviation histogram := (plot_comet hist render json_load).
Abbreviation read := (read_comet json_load).
Abbreviation task := (process_one_file json_load to_csv dialign).
Abbreviation batch := (main json_load to_csv dialign).

Lemma success_comet (path : string) (w : world) (s : success) :
  (task path w).2 = Success s → read path w = inr (comet s).
Proof.
  rewrite task_result_eq, body_outcome.
  destruct (outcome _ _ _ path w) as [e|s'] eqn:Ho; [done|]. intros [= ->].
  unfold outcome in Ho.
  apply bind_inr in Ho as ([c data] & Hl & Ho).
  apply bind_inr in Ho as (csv & _ & Ho).
  apply bind_inr in Ho as (out & _ & Ho).
  assert (comet s = c) as ->.
  { unfold metrics_of, mbind, py_bind in Ho.
    repeat match type of Ho with
           | match at_line ?f ?n ?x with _ => _ end = _ =>
               destruct (at_line f n x); [done|]
           end.
    by injection Ho as <-. }
  unfold load_record in Hl. unfold read_comet.
  destruct (open_read path w).2 as [e|content]; [done|]. simpl in *.
  apply bind_inr in Hl as (debate & Hd%at_line_inr & Hl).
  apply bind_inr in Hl as (c' & Hc%at_line_inr & Hl).
  apply bind_inr in Hl as (d & _ & [= <- _]).
  by rewrite Hd.
Qed.

Lemma comets_sublist (w : world) (l : list string) (scores : list json) :
  Forall2 (λ p sc, read p w = inr sc) l scores →
  sublist (comet <$> oks ((λ p, (task p w).2) <$> l)) scores.
Proof.
  induction 1 as [|p sc l scores Hp Hf IH]; [constructor|].
  rewrite fmap_cons.
  destruct (task p w).2 as [s|f] eqn:Ht.
  - change (oks (Success s :: ((λ p, (task p w).2) <$> l)))
      with (s :: oks ((λ p, (task p w).2) <$> l)).
    rewrite fmap_cons. apply success_comet in Ht.
    assert (comet s = sc) as -> by congruence. by apply sublist_skip.
  - change (oks (Failure f :: ((λ p, (task p w).2) <$> l)))
      with (oks ((λ p, (task p w).2) <$> l)).
    by apply sublist_cons.
Qed.

(** X26: on a directory where the histogram script goes through, the
    scores that [main] plots, those of its successes, are among the scores
    of the histogram, each as many times. *)
Theorem histogram_covers_series (w wh : world) (data : list json)
    (as_completed : list string → list (string * fate)) :
  histogram w = (wh, inr data) →
  (as_completed (record_files w)).*1 ≡ₚ record_files w →
  (∀ x, x ∈ as_completed (record_files w) → x.2 = Returns) →
  ∃ w' results s,
    batch as_completed w = (w', inr (results, s)) ∧
    comet_scores s ⊆+ data.
Proof.
  intros Hh Hperm Hret.
  apply (histogram_returns hist render json_load) in Hh as [Hdir Hf].
  destruct (main_all_return json_load to_csv dialign w as_completed Hdir Hperm Hret)
    as (w' & results & Hmain & Hres & _).
  exists w', results, (build_series results). split; [done|].
  set (g := λ p, match read p w with inr c => c | inl _ => JNull end).
  assert (Hdata : data = g <$> (os_path_join debate_path <$> entry_names w)).
  { clear -Hf. induction Hf as [|name sc names scores Hn _ IH]; [done|].
    rewrite !fmap_cons, <- IH. unfold g. by rewrite Hn. }
  assert (Hfiles : record_files w = os_path_join debate_path <$> entry_names w).
  { unfold record_files. fold (entry_names w).
    clear -Hf. induction Hf as [|name sc names scores Hn _ IH]; [done|].
    rewrite fmap_cons, filter_cons_True, IH; [done|].
    unfold read_comet, open_read, os_path_isfile in *.
    by destruct (w_fs w !! os_path_join debate_path name) as [[| |]|]. }
  assert (Hread : ∀ p, p ∈ record_files w → read p w = inr (g p)).
  { rewrite Hfiles. clear -Hf. induction Hf as [|name sc names scores Hn _ IH].
    - intros p Hp. by apply elem_of_nil in Hp.
    - intros p [->|Hp]%elem_of_cons; [|by apply IH].
      unfold g. by rewrite Hn. }
  assert (Hsub : sublist (comet_scores (build_series results))
                         (g <$> (as_completed (record_files w)).*1)).
  { rewrite Hres. apply comets_sublist. apply Forall2_fmap_r, Forall_Forall2_diag.
    apply Forall_forall. intros p Hp. apply Hread. by rewrite <- Hperm. }
  apply sublist_submseteq in Hsub. rewrite Hperm in Hsub. by rewrite Hdata, <- Hfiles.
Qed.

End BothScripts.

(** ** The further properties on the sample directories *)

Lemma unloaded_record_no_effect_witness :
  (process_one_file Sample.json_load Sample.to_csv Sample.dialign
     "MAD_Debate_Process/b.json" Sample.world0).1 = Sample.world0 ∧
  ok (process_one_file Sample.json_load Sample.to_csv Sample.dialign
        "MAD_Debate_Process/b.json" Sample.world0).2 = false.
Proof.
  apply unloaded_record_no_effect.
  intros content debate c data Hp Hd _ _.
  assert (content = "{oops") as ->.
  { assert (H : w_fs Sample.world0 !! "MAD_Debate_Process/b.json" = Some (File "{oops"))
      by reflexivity.
    rewrite H in Hp. by injection Hp as <-. }
  discriminate Hd.
Defined.

Lemma comet_score_checked_first_witness :
  w_fs Sample2.world4 !! "MAD_Debate_Process/a.json" = Some (File "noscore") ∧
  Sample2.json_load "noscore" = inr (JObj [("players", JNull)]) ∧
  assoc "comet score" [("players", JNull)] = None ∧
  process_one_file Sample2.json_load Sample.to_csv Sample.dialign
    "MAD_Debate_Process/a.json" Sample2.world4 =
  (Sample2.world4,
   Failure (Err "a.json" "KeyError: 'comet score'"
                ([("process_one_file", 46)], "KeyError: 'comet score'"))).
Proof.
  split; [reflexivity|]. split; [reflexivity|]. split; [reflexivity|].
  exact (comet_score_checked_first Sample2.json_load Sample.to_csv Sample.dialign
           Sample2.world4 "MAD_Debate_Process/a.json" "noscore" [("players", JNull)]
           eq_refl eq_refl eq_refl).
Defined.



Lemma main_status_lines_witness :
  ∃ w' results s,
    main Sample.json_load Sample.to_csv Sample.dialign Sample.in_order Sample.world0 =
      (w', inr (results, s)) ∧
    w_out w' = w_out Sample.world0 ++ (status_line <$> results) ∧
    status_line <$> results =
      ["Processed: a.json";
       "FAILED: b.json - JSONDecodeError: Expecting value: line 1 column 1 (char 0)"].
Proof.
  destruct (main Sample.json_load Sample.to_csv Sample.dialign Sample.in_order
              Sample.world0) as [w' [e|[results s]]] eqn:Hm.
  - vm_compute in Hm. discriminate Hm.
  - exists w', results, s. split; [reflexivity|].
    split; [exact (main_status_lines _ _ _ _ _ _ _ _ Hm)|].
    vm_compute in Hm. by injection Hm as _ <- _.
Defined.

Lemma main_without_directory_witness :
  w_fs Sample2.world_empty !! debate_path ≠ Some Dir ∧
  ∃ e, main Sample.json_load Sample.to_csv Sample.dialign Sample.in_order
         Sample2.world_empty = (Sample2.world_empty, inl e) ∧
       exn_class e = "FileNotFoundError".
Proof.
  assert (H : w_fs Sample2.world_empty !! debate_path ≠ Some Dir) by discriminate.
  split; [exact H|].
  exact (main_without_directory Sample.json_load Sample.to_csv Sample.dialign
           Sample2.world_empty Sample.in_order H).
Defined.

Lemma main_empty_directory_witness :
  w_fs Sample2.world_bare !! debate_path = Some Dir ∧
  record_files Sample2.world_bare = [] ∧
  Sample.in_order [] = [] ∧
  main Sample.json_load Sample.to_csv Sample.dialign Sample.in_order Sample2.world_bare =
    (Sample2.world_bare, inr ([], Series [] [] [] [] [] [] [] [])).
Proof.
  assert (Hf : record_files Sample2.world_bare = []) by (vm_compute; reflexivity).
  split; [reflexivity|]. split; [exact Hf|]. split; [reflexivity|].
  exact (main_empty_directory Sample.json_load Sample.to_csv Sample.dialign
           Sample2.world_bare Sample.in_order eq_refl Hf eq_refl).
Defined.

Lemma sample_files3 :
  record_files Sample2.world3 = ["MAD_Debate_Process/a.json"; "MAD_Debate_Process/b.json"].
Proof. vm_compute. reflexivity. Qed.


Lemma sample_schedule :
  w_fs Sample.world0 !! debate_path = Some Dir ∧
  (Sample.reversed (record_files Sample.world0)).*1 ≡ₚ record_files Sample.world0 ∧
  ∀ x, x ∈ Sample.reversed (record_files Sample.world0) → x.2 = Returns.
Proof.
  split; [reflexivity|]. split.
  - rewrite sample_files. vm_compute. apply perm_swap.
  - intros x (p & -> & _)%list_elem_of_fmap. reflexivity.
Qed.

Lemma result_files_distinct_witness :
  ∃ w' results s,
    main Sample.json_load Sample.to_csv Sample.dialign Sample.reversed Sample.world0 =
      (w', inr (results, s)) ∧
    NoDup (file <$> results).
Proof.
  destruct sample_schedule as (Hdir & Hperm & Hret).
  destruct (result_files_distinct Sample.json_load Sample.to_csv Sample.dialign
              Sample.world0 Sample.reversed Hdir Hperm Hret)
    as (w' & results & s & Hm & Hnd & _).
  exists w', results, s. split; [exact Hm|exact Hnd].
Defined.

Lemma dialign_call_count_witness :
  ∃ w' results s,
    main Sample.json_load Sample.to_csv Sample.dialign Sample.reversed Sample.world0 =
      (w', inr (results, s)) ∧
    length (w_calls w') = 1.
Proof.
  destruct sample_schedule as (Hdir & Hperm & Hret).
  destruct (dialign_call_count Sample.json_load Sample.to_csv Sample.dialign
              Sample.world0 Sample.reversed Hdir Hperm Hret)
    as (w' & results & s & Hm & Hcalls & _).
  exists w', results, s. split; [exact Hm|].
  rewrite Hcalls, sample_files. vm_compute. reflexivity.
Defined.

Lemma script_draws_seven_plots_witness :
  ∃ w1 results s w2,
    main Sample.json_load Sample.to_csv Sample.dialign Sample.in_order Sample2.world3 =
      (w1, inr (results, s)) ∧
    main_with_plots Sample2.scatter Sample2.render Sample2.pearsonr_any
      Sample.json_load Sample.to_csv Sample.dialign Sample.in_order Sample2.world3 =
      (w2, inr ()) ∧
    length (w_out w2) = length (w_out w1) + 14.
Proof.
  destruct (main Sample.json_load Sample.to_csv Sample.dialign Sample.in_order
              Sample2.world3) as [w1 [e|[results s]]] eqn:Hm.
  - vm_compute in Hm. discriminate Hm.
  - assert (Hs : ∀ x y : list json, length x = length y → Sample2.scatter x y = inr ()).
    { intros x y Hxy. unfold Sample2.scatter. by rewrite decide_True. }
    destruct (script_draws_seven_plots Sample2.scatter Sample2.render Sample2.pearsonr_any
                Sample.json_load Sample.to_csv Sample.dialign
                Sample2.world3 w1 Sample.in_order results s Sample2.img Sample2.rho
                Hm Hs (λ fig, eq_refl) (λ x y _, eq_refl))
      as (w2 & Hscript & Hout & _).
    exists w1, results, s, w2. split; [reflexivity|]. split; [exact Hscript|].
    rewrite Hout, length_app. reflexivity.
Defined.

Lemma script_stops_at_first_plot_witness :
  ∃ w1 results s w2 e,
    main Sample.json_load Sample.to_csv Sample.dialign Sample.in_order Sample.world1 =
      (w1, inr (results, s)) ∧
    length (ers s) = 1 ∧
    main_with_plots Sample2.scatter Sample2.render Sample2.pearsonr
      Sample.json_load Sample.to_csv Sample.dialign Sample.in_order Sample.world1 =
      (w2, inl e) ∧
    exn_class e = "ValueError" ∧
    w_out w2 = w_out w1 ++ ["Correlation between ER and COMET Score"].
Proof.
  destruct (main Sample.json_load Sample.to_csv Sample.dialign Sample.in_order
              Sample.world1) as [w1 [e|[results s]]] eqn:Hm.
  - vm_compute in Hm. discriminate Hm.
  - assert (Hs : s = Series [JFloat (17 # 20)] [JInt 1] [JInt 2] [JInt 3] [JInt 6]
                            [JInt 4] [JInt 7] [JInt 5]).
    { vm_compute in Hm. by injection Hm as _ _ <-. }
    assert (Hsc : Sample2.scatter (ers s) (comet_scores s) = inr ()) by (by rewrite Hs).
    assert (Hp : Sample2.pearsonr (ers s) (comet_scores s) =
                 inl (Exn "ValueError" "x and y must have length at least 2."
                          [("pearsonr", 4768)])) by (by rewrite Hs).
    destruct (script_stops_at_first_plot Sample2.scatter Sample2.render Sample2.pearsonr
                Sample.json_load Sample.to_csv Sample.dialign
                Sample.world1 w1 Sample.in_order results s _ _ Hm Hsc eq_refl Hp)
      as (w2 & Hscript & _ & Hout).
    exists w1, results, s, w2. eexists.
    split; [reflexivity|]. split; [by rewrite Hs|].
    split; [exact Hscript|]. split; [reflexivity|exact Hout].
Defined.

Lemma sample_entries3 : entry_names Sample2.world3 = ["a.json"; "b.json"].
Proof. vm_compute. reflexivity. Qed.

Lemma histogram_reads_every_entry_witness :
  w_fs Sample2.world3 !! debate_path = Some Dir ∧
  ∃ w' data,
    plot_comet Sample2.hist Sample2.render Sample.json_load Sample2.world3 =
      (w', inr data) ∧
    w_out w' = w_out Sample2.world3 ++ (processing <$> entry_names Sample2.world3).
Proof.
  split; [reflexivity|].
  assert (Hall : ∀ name, name ∈ entry_names Sample2.world3 →
            raises (read_comet Sample.json_load (os_path_join debate_path name)
                      Sample2.world3) = false).
  { rewrite sample_entries3. intros name Hn.
    apply elem_of_cons in Hn as [->|Hn]; [reflexivity|].
    apply list_elem_of_singleton in Hn as ->. reflexivity. }
  destruct (histogram_reads_every_entry Sample2.hist Sample2.render Sample.json_load
              Sample2.world3 (λ data, Sample2.img (Hist data 20 "black"))
              eq_refl Hall (λ data, eq_refl) (λ data, eq_refl))
    as (w' & data & Hh & _ & Hout & _).
  exists w', data. split; [exact Hh|exact Hout].
Defined.

Lemma histogram_stops_at_first_failure_witness :
  entry_names Sample2.world5 = ["a.json"] ++ "b.json" :: [] ∧
  ∃ w' line e,
    plot_comet Sample2.hist Sample2.render Sample.json_load Sample2.world5 = (w', inl e) ∧
    exn_class e = "JSONDecodeError" ∧
    exn_tb e = (top, line) :: [("load", 293); ("loads", 346); ("decode", 337);
                               ("raw_decode", 355)] ∧
    w_fs w' = w_fs Sample2.world5 ∧
    w_out w' = ["Processing a.json"; "Processing b.json"].
Proof.
  assert (Hn : entry_names Sample2.world5 = ["a.json"] ++ "b.json" :: [])
    by (vm_compute; reflexivity).
  assert (Hg : ∀ name, name ∈ ["a.json"] →
            raises (read_comet Sample.json_load (os_path_join debate_path name)
                      Sample2.world5) = false)
    by (intros name ->%list_elem_of_singleton; reflexivity).
  split; [exact Hn|].
  destruct (histogram_stops_at_first_failure Sample2.hist Sample2.render Sample.json_load
              Sample2.world5 ["a.json"] [] "b.json"
              (Exn "JSONDecodeError" "Expecting value: line 1 column 1 (char 0)"
                   [("load", 293); ("loads", 346); ("decode", 337); ("raw_decode", 355)])
              eq_refl Hn Hg eq_refl)
    as (w' & line & Hh & _ & Hfs & Hout).
  exists w', line. eexists. split; [exact Hh|]. split; [reflexivity|].
  split; [reflexivity|]. split; [exact Hfs|exact Hout].
Defined.

Lemma histogram_fails_on_subdirectory_witness :
  w_fs Sample.world0 !! debate_path = Some Dir ∧
  "sub" ∈ entry_names Sample.world0 ∧
  w_fs Sample.world0 !! os_path_join debate_path "sub" = Some Dir ∧
  raises (plot_comet Sample2.hist Sample2.render Sample.json_load Sample.world0).2 = true ∧
  os_path_join debate_path "sub" ∉ record_files Sample.world0.
Proof.
  assert (Hin : "sub" ∈ entry_names Sample.world0).
  { replace (entry_names Sample.world0) with ["sub"; "a.json"; "b.json"]
      by (vm_compute; reflexivity).
    apply list_elem_of_here. }
  split; [reflexivity|]. split; [exact Hin|]. split; [reflexivity|].
  destruct (histogram_fails_on_subdirectory Sample2.hist Sample2.render Sample.json_load
              Sample.world0 "sub" eq_refl Hin eq_refl) as (Hr & _ & Hno).
  split; [exact Hr|exact Hno].
Defined.

Lemma histogram_covers_series_witness :
  ∃ wh data w' results s,
    plot_comet Sample2.hist Sample2.render Sample.json_load Sample2.world3 =
      (wh, inr data) ∧
    main Sample.json_load Sample.to_csv Sample.dialign Sample.in_order Sample2.world3 =
      (w', inr (results, s)) ∧
    comet_scores s ⊆+ data.
Proof.
  destruct (plot_comet Sample2.hist Sample2.render Sample.json_load Sample2.world3)
    as [wh [e|data]] eqn:Hh.
  - vm_compute in Hh. discriminate Hh.
  - assert (Hperm : (Sample.in_order (record_files Sample2.world3)).*1 ≡ₚ
                    record_files Sample2.world3)
      by (rewrite sample_files3; reflexivity).
    assert (Hret : ∀ x, x ∈ Sample.in_order (record_files Sample2.world3) → x.2 = Returns)
      by (intros x (p & -> & _)%list_elem_of_fmap; reflexivity).
    destruct (histogram_covers_series Sample2.hist Sample2.render Sample.json_load
                Sample.to_csv Sample.dialign Sample2.world3 wh data Sample.in_order
                Hh Hperm Hret) as (w' & results & s & Hm & Hsub).
    exists wh, data, w', results, s. split; [reflexivity|]. split; [exact Hm|exact Hsub].
Defined.


